(** * Shallow embedding of the SCT acquisition and verification driver of ctzzy

    Modelled sources:
    - [ctzzy/tls/handshake.py]: [scts_from_cert], [scts_from_ocsp_resp],
      [sctlist_hex_from_ocsp_pretty_print], [scts_from_tls_ext_18],
      [create_context], [serverinfo_cli_parse_cb], [do_handshake];
    - [ctzzy/scripts/verify_scts.py]: [verify_scts_by_cert],
      [verify_scts_by_tls], [verify_scts_by_ocsp], [scrape_and_verify_scts],
      [main].

    Python exceptions are the [Raise] branch of [result]; statements with
    effects (sockets, the shared SSL context, logging, stdout) run in a state
    monad [M] over a [World]. *)

From Stdlib Require Import String Ascii List ZArith NArith Bool Lia.
From Stdlib Require Import Strings.Byte.
Import ListNotations.
Open Scope string_scope.
Open Scope list_scope.
Set Warnings "-register-all,-abstract-large-number".

(* ------------------------------------------------------------------ *)
(** ** Python values: bytes, exceptions, results *)

Definition bytes := list byte.

(** [bN n] is the byte of value [n] (values above 255 never occur below). *)
Definition bN (n : N) : byte :=
  match Byte.of_N n with Some b => b | None => x00 end.

Definition bval (b : byte) : N := Byte.to_N b.

(** Python's exception classes that the modelled code can raise. *)
Inductive exc :=
| TypeError (msg : string)
| ValueError (msg : string)
| AttributeError (msg : string)
| BinasciiError (msg : string)          (* binascii.Error *)
| PyAsn1Error (msg : string)            (* pyasn1.error.PyAsn1Error *)
| MalformedSctList                      (* SctList parser, see below *)
| WrongExtension                        (* TLS extension-18 envelope parser *)
| OSError (msg : string)
| SSLError (msg : string)               (* OpenSSL.SSL.Error *)
| StructError (msg : string)            (* struct.error *)
| IndexError (msg : string)
| SystemExit (code : Z).

Inductive result (A : Type) : Type :=
| Ok (a : A)
| Raise (e : exc).
Arguments Ok {A} a.
Arguments Raise {A} e.

Definition rbind {A B} (m : result A) (k : A -> result B) : result B :=
  match m with Ok a => k a | Raise e => Raise e end.

Notation "'let?' x ':=' m 'in' k" := (rbind m (fun x => k))
  (at level 200, x name, m at level 100, k at level 200).

(** [str(exc)]; [do_handshake] falls back to [str(type(exc))] when empty. *)
Definition exc_message (e : exc) : string :=
  match e with
  | TypeError m | ValueError m | AttributeError m | BinasciiError m
  | PyAsn1Error m | OSError m | SSLError m | StructError m | IndexError m => m
  | MalformedSctList | WrongExtension | SystemExit _ => ""
  end.

Definition exc_type_name (e : exc) : string :=
  match e with
  | TypeError _ => "<class 'TypeError'>"
  | ValueError _ => "<class 'ValueError'>"
  | AttributeError _ => "<class 'AttributeError'>"
  | BinasciiError _ => "<class 'binascii.Error'>"
  | PyAsn1Error _ => "<class 'pyasn1.error.PyAsn1Error'>"
  | MalformedSctList => "<class 'MalformedSctList'>"
  | WrongExtension => "<class 'WrongExtension'>"
  | OSError _ => "<class 'OSError'>"
  | SSLError _ => "<class 'OpenSSL.SSL.Error'>"
  | StructError _ => "<class 'struct.error'>"
  | IndexError _ => "<class 'IndexError'>"
  | SystemExit _ => "<class 'SystemExit'>"
  end.

(** [except Exception] does not catch [SystemExit]. *)
Definition is_exception (e : exc) : bool :=
  match e with SystemExit _ => false | _ => true end.

(* ------------------------------------------------------------------ *)
(** ** Strings: [str.split], hex, decimal *)

Definition nl : string := String (ascii_of_nat 10) EmptyString.

(** First occurrence of a non-empty separator: [(before, after)]. *)
Fixpoint split_once (sep s : string) : option (string * string) :=
  if String.prefix sep s
  then Some (EmptyString, substring (String.length sep)
                            (String.length s - String.length sep) s)
  else match s with
       | EmptyString => None
       | String c s' =>
           match split_once sep s' with
           | Some (a, b) => Some (String c a, b)
           | None => None
           end
       end.

(** [s.split(sep, 1)] *)
Definition py_split1 (s sep : string) : list string :=
  match split_once sep s with
  | Some (a, b) => [a; b]
  | None => [s]
  end.

Fixpoint py_split_fuel (fuel : nat) (s sep : string) : list string :=
  match fuel with
  | O => [s]
  | S f =>
      match split_once sep s with
      | Some (a, b) => a :: py_split_fuel f b sep
      | None => [s]
      end
  end.

(** [s.split(sep)] *)
Definition py_split (s sep : string) : list string :=
  py_split_fuel (S (String.length s)) s sep.

(** [l[-1]] on a non-empty list of strings. *)
Definition py_last (l : list string) : string := last l EmptyString.

Definition hex_digit (n : N) : ascii :=
  if (n <? 10)%N then ascii_of_N (48 + n) else ascii_of_N (87 + n).

Fixpoint hexlify (bs : bytes) : string :=
  match bs with
  | [] => EmptyString
  | b :: rest =>
      String (hex_digit (N.div (bval b) 16))
        (String (hex_digit (N.modulo (bval b) 16)) (hexlify rest))
  end.

Definition hex_value (c : ascii) : option N :=
  let n := N_of_ascii c in
  if ((48 <=? n) && (n <=? 57))%N then Some (n - 48)%N
  else if ((97 <=? n) && (n <=? 102))%N then Some (n - 87)%N
  else if ((65 <=? n) && (n <=? 70))%N then Some (n - 55)%N
  else None.

(** [binascii.unhexlify] on a [str]. *)
Fixpoint unhexlify (s : string) : result bytes :=
  match s with
  | EmptyString => Ok []
  | String _ EmptyString => Raise (BinasciiError "Odd-length string")
  | String c1 (String c2 rest) =>
      match hex_value c1, hex_value c2 with
      | Some h, Some l =>
          let? tl := unhexlify rest in Ok (bN (h * 16 + l) :: tl)
      | _, _ => Raise (BinasciiError "Non-hexadecimal digit found")
      end
  end.

Fixpoint digits_fuel (fuel : nat) (n : N) (acc : string) : string :=
  match fuel with
  | O => acc
  | S f =>
      let acc' := String (ascii_of_N (48 + N.modulo n 10)) acc in
      if (N.div n 10 =? 0)%N then acc' else digits_fuel f (N.div n 10) acc'
  end.

(** [str(n)] for a natural number. *)
Definition string_of_N (n : N) : string := digits_fuel (S (N.size_nat n)) n EmptyString.

Definition string_of_Z (z : Z) : string :=
  match z with
  | Zneg p => String "-" (string_of_N (Npos p))
  | _ => string_of_N (Z.to_N z)
  end.

Fixpoint spaces (n : nat) : string :=
  match n with O => EmptyString | S k => String " " (spaces k) end.

(** Text of a [bytes] object whose bytes are all printable ASCII. *)
Definition text_of_bytes (bs : bytes) : string := string_of_list_byte bs.

Definition printable (b : byte) : bool := ((32 <=? bval b) && (bval b <=? 126))%N.

(** pyasn1 [OctetString.prettyOut]: the text itself when every byte is
    printable ASCII (32..126), otherwise ['0x'] followed by lowercase hex. *)
Definition octets_pretty_out (bs : bytes) : string :=
  if forallb printable bs then text_of_bytes bs else "0x" ++ hexlify bs.

(* ------------------------------------------------------------------ *)
(** ** DER: tag-length-value trees (the part of pyasn1 the code uses) *)

(** A decoded BER/DER element: a primitive with its content octets, or a
    constructed element with its decoded children.  The tag is the
    one-octet identifier (class, constructed bit, tag number < 31). *)
Inductive asn1 :=
| Prim (tag : byte) (content : bytes)
| Cons (tag : byte) (children : list asn1).

Definition tag_constructed (t : byte) : bool := N.testbit (bval t) 5.
Definition tag_universal (t : byte) : bool := (N.div (bval t) 64 =? 0)%N.
Definition tag_high_number (t : byte) : bool := (N.modulo (bval t) 32 =? 31)%N.

Definition be_to_N (bs : bytes) : N :=
  fold_left (fun acc b => acc * 256 + bval b)%N bs 0%N.

(** Definite length, short or long form (up to four length octets). *)
Definition read_len (bs : bytes) : option (N * bytes) :=
  match bs with
  | [] => None
  | l :: rest =>
      if (bval l <? 128)%N then Some (bval l, rest)
      else
        let k := N.to_nat (bval l - 128) in
        if (k =? 0)%nat || (4 <? k)%nat || (length rest <? k)%nat then None
        else Some (be_to_N (firstn k rest), skipn k rest)
  end.

Fixpoint decode_tlv (fuel : nat) (bs : bytes) {struct fuel} : option (asn1 * bytes) :=
  match fuel with
  | O => None
  | S f =>
      match bs with
      | [] => None
      | t :: rest =>
          if tag_high_number t then None else
          match read_len rest with
          | None => None
          | Some (n, body) =>
              let n' := N.to_nat n in
              if (length body <? n')%nat then None else
              if tag_constructed t then
                match decode_children f (firstn n' body) with
                | Some cs => Some (Cons t cs, skipn n' body)
                | None => None
                end
              else Some (Prim t (firstn n' body), skipn n' body)
          end
      end
  end
with decode_children (fuel : nat) (bs : bytes) {struct fuel} : option (list asn1) :=
  match fuel with
  | O => None
  | S f =>
      match bs with
      | [] => Some []
      | _ =>
          match decode_tlv f bs with
          | Some (a, rest) =>
              match decode_children f rest with
              | Some l => Some (a :: l)
              | None => None
              end
          | None => None
          end
      end
  end.

(** OBJECT IDENTIFIER content octets: base-128 sub-identifiers. *)
Fixpoint oid_subids (acc : N) (bs : bytes) : option (list N) :=
  match bs with
  | [] => if (acc =? 0)%N then Some [] else None
  | b :: rest =>
      let acc' := (acc * 128 + N.modulo (bval b) 128)%N in
      if (bval b <? 128)%N
      then match oid_subids 0 rest with Some l => Some (acc' :: l) | None => None end
      else oid_subids acc' rest
  end.

Definition oid_arcs (c : bytes) : option (list N) :=
  match c with
  | [] => None
  | _ =>
      match oid_subids 0 c with
      | Some (v :: rest) =>
          Some ((if (v <? 40)%N then [0; v]
                 else if (v <? 80)%N then [1; v - 40] else [2; v - 80])%N ++ rest)
      | _ => None
      end
  end.

(** Values pyasn1 rejects while decoding the universal types it knows. *)
Fixpoint asn1_values_ok (a : asn1) : bool :=
  match a with
  | Prim t c =>
      match bval t with
      | 1%N => (length c =? 1)%nat
      | 2%N | 10%N => negb (length c =? 0)%nat
      | 5%N => (length c =? 0)%nat
      | 6%N => match oid_arcs c with Some _ => true | None => false end
      | _ => true
      end
  | Cons _ cs => forallb asn1_values_ok cs
  end.

(** [der_decoder(substrate)] without a schema: the first element, the rest
    of the substrate being returned to the caller (which discards it). *)
Definition der_decode (bs : bytes) : result asn1 :=
  match decode_tlv (S (2 * length bs)) bs with
  | Some (a, _) =>
      if asn1_values_ok a then Ok a else Raise (PyAsn1Error "bad value encoding")
  | None => Raise (PyAsn1Error "<TagSet object> not in asn1Spec / short substrate")
  end.

(** [der_decoder(substrate, OctetString())]: the content octets. *)
Definition der_decode_octet_string (bs : bytes) : result bytes :=
  let? a := der_decode bs in
  match a with
  | Prim t c => if (bval t =? 4)%N then Ok c else Raise (PyAsn1Error "tag mismatch")
  | Cons _ _ => Raise (PyAsn1Error "tag mismatch")
  end.

(** DER encoding, used to write concrete inputs. *)
Fixpoint N_to_be_fuel (fuel : nat) (n : N) (acc : bytes) : bytes :=
  match fuel with
  | O => acc
  | S f => if (n =? 0)%N then acc else N_to_be_fuel f (N.div n 256) (bN (N.modulo n 256) :: acc)
  end.

Definition encode_len (n : nat) : bytes :=
  let m := N.of_nat n in
  if (m <? 128)%N then [bN m]
  else let digits := N_to_be_fuel 8 m [] in bN (128 + N.of_nat (length digits)) :: digits.

Fixpoint der_encode (a : asn1) : bytes :=
  match a with
  | Prim t c => t :: encode_len (length c) ++ c
  | Cons t cs =>
      let body := concat (map der_encode cs) in t :: encode_len (length body) ++ body
  end.

Fixpoint oid_subid_bytes_fuel (fuel : nat) (n : N) (acc : bytes) : bytes :=
  match fuel with
  | O => acc
  | S f =>
      let acc' := bN (N.modulo n 128 + (match acc with [] => 0 | _ => 128 end))%N :: acc in
      if (N.div n 128 =? 0)%N then acc' else oid_subid_bytes_fuel f (N.div n 128) acc'
  end.

Definition oid_content (arcs : list N) : bytes :=
  match arcs with
  | a1 :: a2 :: rest =>
      concat (map (fun n => oid_subid_bytes_fuel 8 n []) ((40 * a1 + a2)%N :: rest))
  | _ => []
  end.

(* ------------------------------------------------------------------ *)
(** ** pyasn1 [prettyPrint] of a value decoded without a schema

    The BER decoder without a schema guesses a SEQUENCE whose components
    have more than one tag set as a record ([Sequence]: components printed
    as [<name>=value] lines) and otherwise as [SequenceOf] (components
    printed one after another, unnamed).  Such a record has no component
    types, so pyasn1 (>= 0.4, setup.py) names its components by position
    with [DynamicNames.getNameByPosition]: ['field-0'], ['field-1'], ...;
    never ['<no-name>'], the text [sctlist_hex_from_ocsp_pretty_print]
    searches for.  An explicitly tagged element prints as the value it
    wraps.  OBJECT IDENTIFIER prints dotted, OCTET STRING as
    [octets_pretty_out], INTEGER/ENUMERATED in decimal, BOOLEAN as
    [True]/[False], NULL as nothing, character strings and times as their
    text; remaining primitives (BIT STRING, IMPLICIT context tags dumped raw)
    print as ['0x'] and the hex of the element. *)

Fixpoint tag_set (a : asn1) : list byte :=
  match a with
  | Cons t (c :: _) => if tag_universal t then [t] else t :: tag_set c
  | Cons t [] => [t]
  | Prim t _ => [t]
  end.

Definition list_byte_eqb (l1 l2 : list byte) : bool :=
  (length l1 =? length l2)%nat && forallb (fun p => Byte.eqb (fst p) (snd p)) (combine l1 l2).

(** "components have more than one tag set" *)
Definition has_two_tag_sets (cs : list asn1) : bool :=
  match cs with
  | [] => false
  | c :: rest => existsb (fun d => negb (list_byte_eqb (tag_set c) (tag_set d))) rest
  end.

Definition z_of_twos (c : bytes) : Z :=
  let u := Z.of_N (be_to_N c) in
  match c with
  | b :: _ => if (128 <=? bval b)%N then u - 2 ^ (8 * Z.of_nat (length c)) else u
  | [] => 0
  end.

Definition string_of_arcs (arcs : list N) : string :=
  String.concat "." (map string_of_N arcs).

Definition prim_pretty (t : byte) (c : bytes) : string :=
  match bval t with
  | 1%N => if forallb (fun b => (bval b =? 0)%N) c then "False" else "True"
  | 2%N | 10%N => string_of_Z (z_of_twos c)
  | 4%N => octets_pretty_out c
  | 5%N => EmptyString
  | 6%N => match oid_arcs c with Some arcs => string_of_arcs arcs | None => EmptyString end
  | 12%N | 18%N | 19%N | 20%N | 22%N | 23%N | 24%N | 26%N => text_of_bytes c
  | _ => "0x" ++ hexlify (der_encode (Prim t c))
  end.

(** ['field-%d' % idx] *)
Definition field_name (idx : nat) : string := "field-" ++ string_of_N (N.of_nat idx).

Fixpoint pretty_print (scope : nat) (a : asn1) : string :=
  match a with
  | Prim t c => prim_pretty t c
  | Cons t cs =>
      if negb (tag_universal t) then
        match cs with c :: _ => pretty_print scope c | [] => EmptyString end
      else if has_two_tag_sets cs then
        (if (bval t =? 49)%N then "Set" else "Sequence") ++ ":" ++ nl ++
        (fix fields (idx : nat) (l : list asn1) : string :=
           match l with
           | [] => EmptyString
           | c :: rest =>
               (spaces (S scope) ++ field_name idx ++ "=" ++ pretty_print (S scope) c ++ nl
                ++ fields (S idx) rest)%string
           end) 0%nat cs
      else
        (if (bval t =? 49)%N then "SetOf" else "SequenceOf") ++ ":" ++ nl ++
        String.concat EmptyString
          (map (fun c => spaces (S scope) ++ pretty_print (S scope) c)%string cs)
  end.

(** The [name=value] lines of a record's components, from position [idx]. *)
Fixpoint pretty_print_fields (scope idx : nat) (cs : list asn1) : string :=
  match cs with
  | [] => EmptyString
  | c :: rest =>
      (spaces scope ++ field_name idx ++ "=" ++ pretty_print scope c ++ nl
       ++ pretty_print_fields scope (S idx) rest)%string
  end.

(** [value.prettyPrint()] of a value decoded with the schema [Sequence()]:
    the top level is a record whatever its components. *)
Definition pretty_print_sequence (a : asn1) : string :=
  match a with
  | Cons _ cs =>
      "Sequence:" ++ nl ++ pretty_print_fields 1 0 cs
  | Prim t c => prim_pretty t c
  end.

(* ------------------------------------------------------------------ *)
(** ** SCT containers (ctzzy.rfc6962, ctzzy.tls.sctlist)

    These classes belong to the repository but are not among the modelled
    sources; their parsers follow the spec (section 4.1). *)

(** Modelled from the spec: [ctzzy.rfc6962.SignedCertificateTimestamp],
    constructed from the bytes of one SctList entry; its fields (version,
    log id, timestamp, ...) are read from these bytes on access. *)
Record SignedCertificateTimestamp := { sct_tdf : bytes }.

(** Modelled from the spec: an entry of [SignedCertificateTimestampList.sct_list]. *)
Record SctListEntry := { sct_der : bytes }.

Fixpoint sct_entries_fuel (fuel : nat) (region : bytes) : result (list SctListEntry) :=
  match fuel with
  | O => Raise MalformedSctList
  | S f =>
      match region with
      | [] => Ok []
      | [_] => Raise MalformedSctList
      | h :: l :: rest =>
          let n := N.to_nat (be_to_N [h; l]) in
          if (length rest <? n)%nat then Raise MalformedSctList
          else let? tl := sct_entries_fuel f (skipn n rest) in
               Ok ({| sct_der := firstn n rest |} :: tl)
      end
  end.

(** Modelled from the spec: [SignedCertificateTimestampList(der).sct_list]:
    read [u16 total], then [u16 entry_len || entry] records until [total]
    bytes are consumed; a length that overruns is [MalformedSctList]. *)
Definition sct_list (der : bytes) : result (list SctListEntry) :=
  match der with
  | h :: l :: rest =>
      let total := N.to_nat (be_to_N [h; l]) in
      if (length rest <? total)%nat then Raise MalformedSctList
      else sct_entries_fuel (S total) (firstn total rest)
  | _ => Raise MalformedSctList
  end.

(** Modelled from the spec: [TlsExtension18(tdf).sct_list]: [u16 ext_type]
    (must be 18), [u16 inner_len], an SctList in the next [inner_len] bytes. *)
Definition tls_extension_18_sct_list (tdf : bytes) : result (list SctListEntry) :=
  match tdf with
  | t1 :: t2 :: l1 :: l2 :: rest =>
      if negb (be_to_N [t1; t2] =? 18)%N then Raise WrongExtension
      else
        let n := N.to_nat (be_to_N [l1; l2]) in
        if (length rest <? n)%nat then Raise MalformedSctList
        else sct_list (firstn n rest)
  | _ => Raise MalformedSctList
  end.

Definition sct_of_entry (e : SctListEntry) : SignedCertificateTimestamp :=
  {| sct_tdf := sct_der e |}.

(* ------------------------------------------------------------------ *)
(** ** Schema decoding of the components the functions read *)

Definition list_N_eqb (l1 l2 : list N) : bool :=
  (length l1 =? length l2)%nat && forallb (fun p => N.eqb (fst p) (snd p)) (combine l1 l2).

(** rfc5280 [Extension]: [extnID], [critical BOOLEAN DEFAULT FALSE],
    [extnValue OCTET STRING] (its content octets). *)
Record Extension := { extnID : list N; critical : bool; extnValue : bytes }.

(** The components of [Certificate.tbsCertificate] that [scts_from_cert]
    reads: [extensions], present when the [ [3] ] component is. *)
Record TBSCertificate := { tbs_extensions : option (list Extension) }.
Record Certificate := { tbsCertificate : TBSCertificate }.

(** *** [der_decoder(cert_der, asn1Spec=rfc5280.Certificate())]

    With a schema the decoder reads each component's tag and length and
    decodes its content by the component's type: [ANY] components
    ([AlgorithmIdentifier.parameters], [AttributeTypeAndValue.value]) are
    kept as raw substrate and not looked into.  An element is therefore
    handled here as a raw [(tag, content)] pair. *)

(** One tag-length-value: the tag, the content octets and what follows. *)
Definition read_tlv (bs : bytes) : option (byte * bytes * bytes) :=
  match bs with
  | [] => None
  | t :: rest =>
      if tag_high_number t then None else
      match read_len rest with
      | None => None
      | Some (n, body) =>
          let n' := N.to_nat n in
          if (length body <? n')%nat then None
          else Some (t, firstn n' body, skipn n' body)
      end
  end.

(** The components of a constructed value, one after another. *)
Fixpoint read_tlvs_fuel (fuel : nat) (bs : bytes) : option (list (byte * bytes)) :=
  match fuel with
  | O => None
  | S f =>
      match bs with
      | [] => Some []
      | _ =>
          match read_tlv bs with
          | Some (t, c, rest) =>
              match read_tlvs_fuel f rest with
              | Some l => Some ((t, c) :: l)
              | None => None
              end
          | None => None
          end
      end
  end.

Definition read_tlvs (bs : bytes) : option (list (byte * bytes)) :=
  read_tlvs_fuel (S (length bs)) bs.

Definition tag_is (n : N) (t : byte) : bool := (bval t =? n)%N.

(** OBJECT IDENTIFIER: non-empty, well-formed, no sub-identifier opened by
    the octet [0x80] ('Invalid octet 0x80 in OID encoding'). *)
Fixpoint oid_no_leading_80 (at_start : bool) (bs : bytes) : bool :=
  match bs with
  | [] => true
  | b :: rest =>
      if at_start && tag_is 128 b then false
      else oid_no_leading_80 (bval b <? 128)%N rest
  end.

Definition oid_ok (e : byte * bytes) : bool :=
  tag_is 6 (fst e) && oid_no_leading_80 true (snd e) &&
  match oid_arcs (snd e) with Some _ => true | None => false end.

(** INTEGER: primitive; empty content decodes as 0. *)
Definition integer_ok (e : byte * bytes) : bool := tag_is 2 (fst e).

(** BIT STRING content: the number of unused bits, at most 7, first
    ('Empty BIT STRING substrate', 'Trailing bits overflow'). *)
Definition bit_string_content_ok (c : bytes) : bool :=
  match c with [] => false | u :: _ => (bval u <=? 7)%N end.

Definition bit_string_ok (e : byte * bytes) : bool :=
  tag_is 3 (fst e) && bit_string_content_ok (snd e).

(** [Time ::= CHOICE { utcTime UTCTime, generalTime GeneralizedTime }] *)
Definition time_ok (e : byte * bytes) : bool := tag_is 23 (fst e) || tag_is 24 (fst e).

(** [AlgorithmIdentifier ::= SEQUENCE { algorithm OBJECT IDENTIFIER,
    parameters ANY OPTIONAL }] *)
Definition algorithm_identifier_ok (e : byte * bytes) : bool :=
  tag_is 48 (fst e) &&
  match read_tlvs (snd e) with
  | Some [o] => oid_ok o
  | Some [o; _] => oid_ok o
  | _ => false
  end.

(** [AttributeTypeAndValue ::= SEQUENCE { type OBJECT IDENTIFIER, value ANY }] *)
Definition attribute_ok (e : byte * bytes) : bool :=
  tag_is 48 (fst e) &&
  match read_tlvs (snd e) with
  | Some [o; _] => oid_ok o
  | _ => false
  end.

(** [RelativeDistinguishedName ::= SET OF AttributeTypeAndValue] *)
Definition rdn_ok (e : byte * bytes) : bool :=
  tag_is 49 (fst e) &&
  match read_tlvs (snd e) with Some l => forallb attribute_ok l | None => false end.

(** [Name ::= CHOICE { rdnSequence SEQUENCE OF RelativeDistinguishedName }] *)
Definition name_ok (e : byte * bytes) : bool :=
  tag_is 48 (fst e) &&
  match read_tlvs (snd e) with Some l => forallb rdn_ok l | None => false end.

(** [Validity ::= SEQUENCE { notBefore Time, notAfter Time }] *)
Definition validity_ok (e : byte * bytes) : bool :=
  tag_is 48 (fst e) &&
  match read_tlvs (snd e) with Some [a; b] => time_ok a && time_ok b | _ => false end.

(** [SubjectPublicKeyInfo ::= SEQUENCE { algorithm AlgorithmIdentifier,
    subjectPublicKey BIT STRING }] *)
Definition spki_ok (e : byte * bytes) : bool :=
  tag_is 48 (fst e) &&
  match read_tlvs (snd e) with
  | Some [a; k] => algorithm_identifier_ok a && bit_string_ok k
  | _ => false
  end.

(** An EXPLICIT tag wraps one element; the decoder reads the first element
    of its content and drops the rest. *)
Definition explicit_inner (c : bytes) : option (byte * bytes) :=
  match read_tlv c with Some (t, ic, _) => Some (t, ic) | None => None end.

(** [Extension ::= SEQUENCE { extnID OBJECT IDENTIFIER,
    critical BOOLEAN DEFAULT FALSE, extnValue OCTET STRING }] *)
Definition extension_of_tlv (e : byte * bytes) : result Extension :=
  if negb (tag_is 48 (fst e)) then Raise (PyAsn1Error "Extension") else
  match read_tlvs (snd e) with
  | Some [o; v] =>
      match oid_arcs (snd o) with
      | Some arcs =>
          if oid_ok o && tag_is 4 (fst v)
          then Ok {| extnID := arcs; critical := false; extnValue := snd v |}
          else Raise (PyAsn1Error "Extension")
      | None => Raise (PyAsn1Error "Extension")
      end
  | Some [o; b; v] =>
      match oid_arcs (snd o) with
      | Some arcs =>
          if oid_ok o && tag_is 1 (fst b) && (length (snd b) =? 1)%nat && tag_is 4 (fst v)
          then Ok {| extnID := arcs; critical := negb (forallb (fun x => bval x =? 0)%N (snd b));
                     extnValue := snd v |}
          else Raise (PyAsn1Error "Extension")
      | None => Raise (PyAsn1Error "Extension")
      end
  | _ => Raise (PyAsn1Error "Extension")
  end.

Fixpoint extensions_of_tlvs (l : list (byte * bytes)) : result (list Extension) :=
  match l with
  | [] => Ok []
  | e :: rest =>
      let? x := extension_of_tlv e in
      let? xs := extensions_of_tlvs rest in Ok (x :: xs)
  end.

(** [extensions [3] EXPLICIT Extensions]: a SEQUENCE OF Extension. *)
Definition extensions_field (c : bytes) : result (list Extension) :=
  match explicit_inner c with
  | Some (s, sc) =>
      if tag_is 48 s then
        match read_tlvs sc with
        | Some l => extensions_of_tlvs l
        | None => Raise (PyAsn1Error "Extensions")
        end
      else Raise (PyAsn1Error "Extensions")
  | None => Raise (PyAsn1Error "Extensions")
  end.

(** The trailing OPTIONAL components of [TBSCertificate]:
    [issuerUniqueID [1] IMPLICIT BIT STRING], [subjectUniqueID [2] IMPLICIT
    BIT STRING] and [extensions [3] EXPLICIT Extensions], in this order;
    anything else is not in the schema. *)
Definition tbs_optional_tail (l : list (byte * bytes)) : result (option (list Extension)) :=
  let l1 := match l with
            | e :: r => if tag_is 129 (fst e) && bit_string_content_ok (snd e) then r else l
            | [] => l
            end in
  let l2 := match l1 with
            | e :: r => if tag_is 130 (fst e) && bit_string_content_ok (snd e) then r else l1
            | [] => l1
            end in
  match l2 with
  | [] => Ok None
  | [e] =>
      if tag_is 163 (fst e) then let? es := extensions_field (snd e) in Ok (Some es)
      else Raise (PyAsn1Error "TagSet not in asn1Spec")
  | _ => Raise (PyAsn1Error "TagSet not in asn1Spec")
  end.

(** [TBSCertificate ::= SEQUENCE { version [0] EXPLICIT Version DEFAULT v1,
    serialNumber, signature AlgorithmIdentifier, issuer Name, validity
    Validity, subject Name, subjectPublicKeyInfo, ... }]: a missing
    required component is 'uninitialized', a wrong tag not in the schema. *)
Definition decode_tbs_certificate (c : bytes) : result TBSCertificate :=
  match read_tlvs c with
  | None => Raise (PyAsn1Error "TBSCertificate")
  | Some l =>
      let? l' := match l with
                 | e :: r =>
                     if tag_is 160 (fst e) then
                       match explicit_inner (snd e) with
                       | Some v => if integer_ok v then Ok r else Raise (PyAsn1Error "Version")
                       | None => Raise (PyAsn1Error "Version")
                       end
                     else Ok l
                 | [] => Ok l
                 end in
      match l' with
      | serial :: sig :: issuer :: validity :: subject :: spki :: rest =>
          if integer_ok serial && algorithm_identifier_ok sig && name_ok issuer &&
             validity_ok validity && name_ok subject && spki_ok spki
          then let? exts := tbs_optional_tail rest in Ok {| tbs_extensions := exts |}
          else Raise (PyAsn1Error "TBSCertificate")
      | _ => Raise (PyAsn1Error "TBSCertificate has uninitialized components")
      end
  end.

(** [Certificate ::= SEQUENCE { tbsCertificate, signatureAlgorithm
    AlgorithmIdentifier, signature BIT STRING }]; what follows the
    certificate in [cert_der] is returned to the caller, which drops it. *)
Definition decode_certificate (cert_der : bytes) : result Certificate :=
  match read_tlv cert_der with
  | Some (t, c, _) =>
      if negb (tag_is 48 t) then Raise (PyAsn1Error "Certificate") else
      match read_tlvs c with
      | Some [tbs; alg; sig] =>
          if tag_is 48 (fst tbs) && algorithm_identifier_ok alg && bit_string_ok sig then
            let? tbs' := decode_tbs_certificate (snd tbs) in
            Ok {| tbsCertificate := tbs' |}
          else Raise (PyAsn1Error "Certificate")
      | _ => Raise (PyAsn1Error "Certificate")
      end
  | None => Raise (PyAsn1Error "Certificate")
  end.

(** rfc2560 [ResponseBytes] and [OCSPResponse]. *)
Record ResponseBytes := { responseType : list N; response : bytes }.
Record OCSPResponse := { responseStatus : Z; responseBytes : option ResponseBytes }.

(** [der_decoder(ocsp_resp_der, asn1Spec=rfc2560.OCSPResponse())]. *)
Definition decode_ocsp_response (der : bytes) : result OCSPResponse :=
  let? a := der_decode der in
  match a with
  | Cons t (Prim e st :: rest) =>
      if negb ((bval t =? 48) && (bval e =? 10))%N then Raise (PyAsn1Error "OCSPResponse") else
      match rest with
      | [] => Ok {| responseStatus := z_of_twos st; responseBytes := None |}
      | [Cons a0 [Cons s [Prim o oid; Prim v r]]] =>
          match oid_arcs oid with
          | Some arcs =>
              if ((bval a0 =? 160) && (bval s =? 48) && (bval o =? 6) && (bval v =? 4))%N
              then Ok {| responseStatus := z_of_twos st;
                         responseBytes := Some {| responseType := arcs; response := r |} |}
              else Raise (PyAsn1Error "ResponseBytes")
          | None => Raise (PyAsn1Error "ResponseBytes")
          end
      | _ => Raise (PyAsn1Error "OCSPResponse")
      end
  | _ => Raise (PyAsn1Error "OCSPResponse")
  end.

(** [der_decoder(substrate, Sequence())]. *)
Definition der_decode_sequence (bs : bytes) : result asn1 :=
  let? a := der_decode bs in
  match a with
  | Cons t _ => if (bval t =? 48)%N then Ok a else Raise (PyAsn1Error "tag mismatch")
  | Prim _ _ => Raise (PyAsn1Error "tag mismatch")
  end.

(* ------------------------------------------------------------------ *)
(** ** [ctzzy/tls/handshake.py]: SCTs of the three channels *)

Definition sctlist_oid : list N := [1; 3; 6; 1; 4; 1; 11129; 2; 4; 2]%N.

(** The common tail of [scts_from_cert] (lines 42-49) and
    [scts_from_ocsp_resp] (lines 90-97): the decoded inner OCTET STRING is
    pretty-printed, the text after the last ['0x'] is unhexlified and handed
    to the SctList parser. *)
Definition scts_of_sctlist_octets (os_inner : bytes) : result (list SignedCertificateTimestamp) :=
  let sctlist_hex := py_last (py_split (octets_pretty_out os_inner) "0x") in
  let? sctlist_der := unhexlify sctlist_hex in
  let? entries := sct_list sctlist_der in
  Ok (map sct_of_entry entries).

Definition scts_from_cert (cert_der : bytes) : result (list SignedCertificateTimestamp) :=
  let? cert := decode_certificate cert_der in
  let exts := match tbs_extensions (tbsCertificate cert) with
              | Some es => filter (fun e => list_N_eqb (extnID e) sctlist_oid) es
              | None => []
              end in
  match exts with
  | extension_sctlist :: _ =>
      let os_inner_der := extnValue extension_sctlist in
      let? os_inner := der_decode_octet_string os_inner_der in
      scts_of_sctlist_octets os_inner
  | [] => Ok []
  end.

Definition ocsp_sctlist_marker : string := "<no-name>=1.3.6.1.4.1.11129.2.4.5".

Definition sctlist_hex_from_ocsp_pretty_print (ocsp_resp : string) : result (option string) :=
  match py_split1 ocsp_resp ocsp_sctlist_marker with
  | [_; after] =>
      match py_split1 after "<no-name>=0x" with
      | [_; sctlist_hex_with_rest] =>
          match py_split1 sctlist_hex_with_rest nl with
          | [sctlist_hex; _] => Ok (Some sctlist_hex)
          | _ => Raise (ValueError "not enough values to unpack (expected 2, got 1)")
          end
      | _ => Raise (ValueError "not enough values to unpack (expected 2, got 1)")
      end
  | _ => Ok None
  end.

(** Python truthiness of [bytes] and [str]. *)
Definition bytes_truthy (b : bytes) : bool := match b with [] => false | _ => true end.
Definition str_truthy (s : string) : bool := match s with EmptyString => false | _ => true end.

Definition scts_from_ocsp_resp (ocsp_resp_der : option bytes) : result (list SignedCertificateTimestamp) :=
  match ocsp_resp_der with
  | Some der =>
      if bytes_truthy der then
        let? ocsp_resp := decode_ocsp_response der in
        match responseBytes ocsp_resp with
        | Some response_bytes =>
            let response_os := response response_bytes in
            let? response := der_decode_sequence response_os in
            let? sctlist_os_hex := sctlist_hex_from_ocsp_pretty_print (pretty_print_sequence response) in
            match sctlist_os_hex with
            | Some h =>
                if str_truthy h then
                  let? sctlist_os_der := unhexlify h in
                  let? sctlist_os := der_decode_octet_string sctlist_os_der in
                  scts_of_sctlist_octets sctlist_os
                else Ok []
            | None => Ok []
            end
        | None => Ok []
        end
      else Ok []
  | None => Ok []
  end.

Definition scts_from_tls_ext_18 (tls_ext_18_tdf : option bytes) : result (list SignedCertificateTimestamp) :=
  match tls_ext_18_tdf with
  | Some tdf =>
      if bytes_truthy tdf then
        let? sct_list := tls_extension_18_sct_list tdf in
        Ok (map sct_of_entry sct_list)
      else Ok []
  | None => Ok []
  end.

(* ------------------------------------------------------------------ *)
(** ** Python values of the extension-18 parse callback *)

Inductive pyval :=
| PyNone
| PyBool (b : bool)
| PyInt (z : Z)
| PyStr (s : string)
| PyBytes (b : bytes)
| PyTuple (l : list pyval)
| PyList (l : list pyval)
| PyFunction (name : string).

(** [v[idx]] for the values occurring in the callback. *)
Definition py_getitem (v idx : pyval) : result pyval :=
  match v, idx with
  | (PyTuple l | PyList l), PyInt i =>
      let j := if (i <? 0)%Z then (Z.of_nat (length l) + i)%Z else i in
      if (j <? 0)%Z then Raise (IndexError "index out of range") else
      match nth_error l (Z.to_nat j) with
      | Some x => Ok x
      | None => Raise (IndexError "index out of range")
      end
  | PyFunction _, _ => Raise (TypeError "'function' object is not subscriptable")
  | _, _ => Raise (TypeError "object is not subscriptable")
  end.

(** [a + b] *)
Definition py_add (a b : pyval) : result pyval :=
  match a, b with
  | PyInt x, PyInt y => Ok (PyInt (x + y))
  | PyStr x, PyStr y => Ok (PyStr (x ++ y))
  | PyBytes x, PyBytes y => Ok (PyBytes (x ++ y))
  | PyTuple x, PyTuple y => Ok (PyTuple (x ++ y))
  | PyList x, PyList y => Ok (PyList (x ++ y))
  | _, _ => Raise (TypeError "unsupported operand type(s) for +")
  end.

(** The nested [reduce_func] of [serverinfo_cli_parse_cb]. *)
Definition reduce_func (accum_value current : pyval) : result pyval :=
  let? a0 := py_getitem accum_value (PyInt 0) in
  let? c0 := py_getitem current (PyInt 0) in
  let? fmt := py_add a0 c0 in
  let? a1 := py_getitem accum_value (PyInt 1) in
  let? c1 := py_getitem current (PyInt 1) in
  let? values := py_add a1 (PyTuple [c1]) in
  Ok (PyTuple [fmt; values]).

(** [f(a, b)]: the only Python function called with two arguments here is
    [reduce_func]. *)
Definition py_call2 (f a b : pyval) : result pyval :=
  match f with
  | PyFunction "reduce_func" => reduce_func a b
  | _ => Raise (TypeError "object is not callable")
  end.

Definition py_iter (v : pyval) : result (list pyval) :=
  match v with
  | PyTuple l | PyList l => Ok l
  | PyStr s => Ok (map (fun c => PyStr (String c EmptyString)) (list_ascii_of_string s))
  | PyBytes b => Ok (map (fun x => PyInt (Z.of_N (bval x))) b)
  | _ => Raise (TypeError "object is not iterable")
  end.

Fixpoint fold_call (f acc : pyval) (l : list pyval) : result pyval :=
  match l with
  | [] => Ok acc
  | x :: rest => let? acc' := py_call2 f acc x in fold_call f acc' rest
  end.

(** [functools.reduce(function, iterable[, initializer])] *)
Definition functools_reduce (f iterable : pyval) (initializer : option pyval) : result pyval :=
  let? items := py_iter iterable in
  match initializer, items with
  | Some i, _ => fold_call f i items
  | None, [] => Raise (TypeError "reduce() of empty iterable with no initial value")
  | None, x :: rest => fold_call f x rest
  end.

(** [struct.pack(fmt, *values)] for formats made of a byte-order character
    and the codes [H] and [<n>s], the ones [serverinfo_cli_parse_cb] builds. *)
Fixpoint struct_pack_codes (fuel : nat) (count : option nat) (codes : list ascii)
    (values : list pyval) : result bytes :=
  match fuel with
  | O => Raise (StructError "bad char in struct format")
  | S f =>
      match codes, values with
      | [], [] => Ok []
      | [], _ => Raise (StructError "pack expected fewer items")
      | c :: cs, _ =>
          let n := nat_of_ascii c in
          if ((48 <=? n) && (n <=? 57))%nat then
            struct_pack_codes f (Some (10 * match count with Some k => k | None => 0 end + (n - 48))%nat) cs values
          else if (n =? 72)%nat then
            match values with
            | PyInt v :: vs =>
                if ((0 <=? v) && (v <=? 65535))%Z then
                  let? tl := struct_pack_codes f None cs vs in
                  Ok (bN (Z.to_N (v / 256)) :: bN (Z.to_N (v mod 256)) :: tl)
                else Raise (StructError "'H' format requires 0 <= number <= 65535")
            | _ => Raise (StructError "required argument is not an integer")
            end
          else if (n =? 115)%nat then
            match values with
            | PyBytes b :: vs =>
                let k := match count with Some k => k | None => 1%nat end in
                let? tl := struct_pack_codes f None cs vs in
                Ok (firstn k b ++ repeat x00 (k - length b) ++ tl)
            | _ => Raise (StructError "argument for 's' must be a bytes object")
            end
          else Raise (StructError "bad char in struct format")
      end
  end.

Definition struct_pack (fmt : pyval) (values : pyval) : result bytes :=
  match fmt, values with
  | PyStr (String c rest), PyTuple vs =>
      if (nat_of_ascii c =? 33)%nat
      then struct_pack_codes (S (String.length rest)) None (list_ascii_of_string rest) vs
      else Raise (StructError "bad char in struct format")
  | _, _ => Raise (StructError "bad char in struct format")
  end.

(** [flo('{inlen}s')] *)
Definition flo_inlen_s (inlen : Z) : string := string_of_Z inlen ++ "s".

(* ------------------------------------------------------------------ *)
(** ** Log list and verification results (ctzzy.ctlog, ctzzy.sct) *)

(** Modelled from the spec: a CT log of the registry (section 3). *)
Record Log := { log_id : bytes; log_key : bytes; description : string; operator_name : string }.
Definition Logs := list Log.

(** Modelled from the spec: [SctVerificationResult] (section 3). *)
Record SctVerificationResult := { vr_sct : SignedCertificateTimestamp; vr_log : option Log; vr_verified : bool }.

(* ------------------------------------------------------------------ *)
(** ** The world: the SSL context, sockets, output *)

(** The attributes of the [OpenSSL.SSL.Context] object created by
    [create_context]: the two attributes the code attaches to it, whether
    the extension-18 parse callback and the OCSP client callback are
    registered in it, and the session timeout. *)
Record Ctx := {
  ctx_tls_ext_18_tdf : option bytes;
  ctx_ocsp_resp_der : option bytes;
  ctx_custom_ext_18 : bool;
  ctx_ocsp_client_callback : bool;
  ctx_timeout : Z }.

Definition empty_ctx : Ctx :=
  {| ctx_tls_ext_18_tdf := None; ctx_ocsp_resp_der := None; ctx_custom_ext_18 := false;
     ctx_ocsp_client_callback := false; ctx_timeout := 0 |}.

(** Observable output: log records, stdout and stderr, and the calls of the
    verification task functions. *)
Inductive event :=
| LogInfo (s : string)
| LogVerbose (s : string)
| LogDebug (s : string)
| LogWarning (s : string)
| Stdout (s : string)
| Stderr (s : string)
| TaskCalled (name : string)
| ShowVerification (v : SctVerificationResult)
(** [init_logger()] and [setup_logging(level)] of [ctzzy.utils.logger]
    (not among the modelled sources) configure the logger; they print
    nothing themselves. *)
| LoggerInit
| LoggerSetup (level : Z)
(** [logger.debug(obj)] of an object that is not a string: the record's
    message is the object; for an argparse [Namespace] its attributes, in
    the sorted order its [repr] lists them. *)
| LogDebugNamespace (attrs : list (string * pyval)).

(** [w_ctx] is the context object of the current [do_handshake] (the one
    its callbacks close over and [sock.get_context()] returns); [w_open]
    lists the sockets not yet closed. *)
Record World := { w_ctx : Ctx; w_next_fd : nat; w_open : list nat; w_trace : list event }.

Definition M (A : Type) : Type := World -> result A * World.

Definition mret {A} (a : A) : M A := fun w => (Ok a, w).

Definition mbind {A B} (m : M A) (k : A -> M B) : M B :=
  fun w => match m w with
           | (Ok a, w') => k a w'
           | (Raise e, w') => (Raise e, w')
           end.

Notation "x <- m ;; k" := (mbind m (fun x => k))
  (at level 61, m at next level, right associativity).
Notation "m ;; k" := (mbind m (fun _ => k))
  (at level 61, right associativity).

Definition mraise {A} (e : exc) : M A := fun w => (Raise e, w).
Definition lift {A} (r : result A) : M A := fun w => (r, w).

Definition emit (e : event) : M unit :=
  fun w => (Ok tt, {| w_ctx := w_ctx w; w_next_fd := w_next_fd w; w_open := w_open w;
                      w_trace := w_trace w ++ [e] |}).

Definition get_ctx : M Ctx := fun w => (Ok (w_ctx w), w).

Definition put_ctx (c : Ctx) : M unit :=
  fun w => (Ok tt, {| w_ctx := c; w_next_fd := w_next_fd w; w_open := w_open w;
                      w_trace := w_trace w |}).

(** [try: m / except Exception as exc: h(exc)] *)
Definition try_except {A} (m : M A) (h : exc -> M A) : M A :=
  fun w => match m w with
           | (Raise e, w') => if is_exception e then h e w' else (Raise e, w')
           | r => r
           end.

(** [try: m / finally: fin] *)
Definition try_finally {A} (m : M A) (fin : M unit) : M A :=
  fun w => let (r, w') := m w in
           match fin w' with
           | (Ok _, w'') => (r, w'')
           | (Raise e, w'') => (Raise e, w'')
           end.

Definition set_ctx_tls_ext_18_tdf (v : option bytes) (c : Ctx) : Ctx :=
  {| ctx_tls_ext_18_tdf := v; ctx_ocsp_resp_der := ctx_ocsp_resp_der c;
     ctx_custom_ext_18 := ctx_custom_ext_18 c; ctx_ocsp_client_callback := ctx_ocsp_client_callback c;
     ctx_timeout := ctx_timeout c |}.
Definition set_ctx_ocsp_resp_der (v : option bytes) (c : Ctx) : Ctx :=
  {| ctx_tls_ext_18_tdf := ctx_tls_ext_18_tdf c; ctx_ocsp_resp_der := v;
     ctx_custom_ext_18 := ctx_custom_ext_18 c; ctx_ocsp_client_callback := ctx_ocsp_client_callback c;
     ctx_timeout := ctx_timeout c |}.
Definition set_ctx_custom_ext_18 (v : bool) (c : Ctx) : Ctx :=
  {| ctx_tls_ext_18_tdf := ctx_tls_ext_18_tdf c; ctx_ocsp_resp_der := ctx_ocsp_resp_der c;
     ctx_custom_ext_18 := v; ctx_ocsp_client_callback := ctx_ocsp_client_callback c;
     ctx_timeout := ctx_timeout c |}.
Definition set_ctx_ocsp_client_callback (v : bool) (c : Ctx) : Ctx :=
  {| ctx_tls_ext_18_tdf := ctx_tls_ext_18_tdf c; ctx_ocsp_resp_der := ctx_ocsp_resp_der c;
     ctx_custom_ext_18 := ctx_custom_ext_18 c; ctx_ocsp_client_callback := v;
     ctx_timeout := ctx_timeout c |}.
Definition set_ctx_timeout (v : Z) (c : Ctx) : Ctx :=
  {| ctx_tls_ext_18_tdf := ctx_tls_ext_18_tdf c; ctx_ocsp_resp_der := ctx_ocsp_resp_der c;
     ctx_custom_ext_18 := ctx_custom_ext_18 c; ctx_ocsp_client_callback := ctx_ocsp_client_callback c;
     ctx_timeout := v |}.

Definition modify_ctx (f : Ctx -> Ctx) : M unit := c <- get_ctx ;; put_ctx (f c).

(* ------------------------------------------------------------------ *)
(** ** The peer and the environment *)

(** [OpenSSL.crypto.X509]; [dump_certificate(FILETYPE_ASN1, cert)] is its DER. *)
Record X509 := { x509_der : bytes }.
Definition dump_certificate (cert : X509) : bytes := x509_der cert.

(** What the peer reached for a host name does: the failure of
    [connect((domain, port))] if any; the payload of its SCT extension (18)
    reply, sent when the client offers the extension; its stapled OCSP
    response ([b''] when none); a failure of the rest of the handshake if
    any; its certificate and the chain [get_peer_cert_chain()] returns. *)
Record Server := {
  srv_connect_error : option string;
  srv_ext18_reply : option bytes;
  srv_ocsp_staple : bytes;
  srv_handshake_error : option string;
  srv_peer_certificate : X509;
  srv_peer_cert_chain : list X509 }.

(** The wrapper objects of [TlsHandshakeResult]'s lazy values. *)
Record EndEntityCert := { ee_der : option bytes }.
Record IssuerCert := { issuer_der : option bytes }.

Inductive sign_input_func := create_signature_input | create_signature_input_precert.

(** Where [main] takes the log list from ([--latest-logs] or the default). *)
Inductive log_list_source := get_log_list | download_log_list.

(** A directory entry as [os.path.isfile] and [open(path, 'r')] see it. *)
Inductive fs_entry :=
| NoEntry
| DirEntry
| RegularFile (readable : bool) (contents : string).

(** The collaborators outside the modelled sources: the network, the
    registration of the custom extension in OpenSSL, the properties of
    [EndEntityCert], [ctzzy.sct.verification.verify_scts], the log-list
    loaders (with [set_operator_names] and [Logs(...)]) and the file system. *)
Record Env := {
  env_network : string -> Server;
  env_custom_ext_ok : bool;
  env_is_ev_cert : bytes -> bool;
  env_is_letsencrypt_cert : bytes -> bool;
  env_verify_scts : EndEntityCert -> list SignedCertificateTimestamp -> Logs ->
                    option IssuerCert -> option (list IssuerCert) -> sign_input_func ->
                    result (list SctVerificationResult);
  env_fetch_ctlogs : log_list_source -> result Logs;
  env_read_log_list : string -> result Logs;
  env_fs : string -> fs_entry }.

(* ------------------------------------------------------------------ *)
(** ** [create_context] and its callbacks *)

(** [serverinfo_cli_parse_cb(ssl, ext_type, _in, inlen, al, arg)] (lines
    177-192), as written: the first argument of [reduce] is the subscript
    [reduce_func[...]] of the nested function by the tuple of the three
    [(code, value)] pairs.  [_in] is the buffer OpenSSL passes, of which
    [ffi.buffer(_in, inlen)] takes the first [inlen] bytes. *)
Definition serverinfo_cli_parse_cb (ext_type : Z) (in_ : bytes) (inlen : Z) : M Z :=
  if (ext_type =? 18)%Z then
    let initializer := PyTuple [PyStr "!"; PyTuple []] in
    let items := PyTuple [PyTuple [PyStr "H"; PyInt ext_type];
                          PyTuple [PyStr "H"; PyInt inlen];
                          PyTuple [PyStr (flo_inlen_s inlen); PyBytes (firstn (Z.to_nat inlen) in_)]] in
    f <- lift (py_getitem (PyFunction "reduce_func") items) ;;
    r <- lift (functools_reduce f initializer None) ;;
    fmt <- lift (py_getitem r (PyInt 0)) ;;
    values <- lift (py_getitem r (PyInt 1)) ;;
    packed <- lift (struct_pack fmt values) ;;
    modify_ctx (set_ctx_tls_ext_18_tdf (Some packed)) ;;
    mret 1%Z
  else mret 1%Z.

(** The same callback with the call [reduce(reduce_func, [...], initializer)]
    that the [reduce_func]/[initializer] definitions are written for; used
    only to compare with [serverinfo_cli_parse_cb]. *)
Definition serverinfo_cli_parse_cb_reduce_call (ext_type : Z) (in_ : bytes) (inlen : Z) : M Z :=
  if (ext_type =? 18)%Z then
    let initializer := PyTuple [PyStr "!"; PyTuple []] in
    let items := PyList [PyTuple [PyStr "H"; PyInt ext_type];
                         PyTuple [PyStr "H"; PyInt inlen];
                         PyTuple [PyStr (flo_inlen_s inlen); PyBytes (firstn (Z.to_nat inlen) in_)]] in
    r <- lift (functools_reduce (PyFunction "reduce_func") items (Some initializer)) ;;
    fmt <- lift (py_getitem r (PyInt 0)) ;;
    values <- lift (py_getitem r (PyInt 1)) ;;
    packed <- lift (struct_pack fmt values) ;;
    modify_ctx (set_ctx_tls_ext_18_tdf (Some packed)) ;;
    mret 1%Z
  else mret 1%Z.

(** A Python callback behind an [@ffi.def_extern()] entry point returning
    an int: an exception is printed to stderr and the C caller gets 0. *)
Definition cffi_int_callback (m : M Z) : M Z :=
  fun w => match m w with
           | (Ok r, w') => (Ok r, w')
           | (Raise e, w') =>
               (Ok 0%Z, snd (emit (Stderr ("From cffi callback: " ++ exc_type_name e ++ ": "
                                           ++ exc_message e)) w'))
           end.

(** [ocsp_client_callback(connection, ocsp_data, data)] (lines 209-211). *)
Definition ocsp_client_callback (ocsp_data : bytes) : M bool :=
  modify_ctx (set_ctx_ocsp_resp_der (Some ocsp_data)) ;;
  mret true.

(** [create_context(scts_tls, scts_ocsp, timeout)]: a fresh context becomes
    the current one.  The permissive verify callback and the CA bundle do
    not influence the claims and are not represented. *)
Definition create_context (env : Env) (scts_tls scts_ocsp : bool) (timeout : Z) : M unit :=
  put_ctx empty_ctx ;;
  modify_ctx (set_ctx_tls_ext_18_tdf None) ;;
  (if scts_tls then
     if env_custom_ext_ok env
     then modify_ctx (set_ctx_custom_ext_18 true)
     else emit (Stderr ("Unable to add custom extension 18" ++ nl)) ;;
          mraise (SystemExit 1)
   else mret tt) ;;
  modify_ctx (set_ctx_ocsp_resp_der None) ;;
  (if scts_ocsp then modify_ctx (set_ctx_ocsp_client_callback true) else mret tt) ;;
  modify_ctx (set_ctx_timeout timeout).

(* ------------------------------------------------------------------ *)
(** ** The connection *)

(** [create_socket(ctx)]: a new socket, open until [close]. *)
Definition create_socket : M nat :=
  fun w => (Ok (w_next_fd w),
            {| w_ctx := w_ctx w; w_next_fd := S (w_next_fd w); w_open := w_next_fd w :: w_open w;
               w_trace := w_trace w |}).

Definition sock_close (fd : nat) : M unit :=
  fun w => (Ok tt, {| w_ctx := w_ctx w; w_next_fd := w_next_fd w;
                      w_open := filter (fun x => negb (Nat.eqb x fd)) (w_open w);
                      w_trace := w_trace w |}).

(** [str.encode()] of a host name (ASCII text). *)
Definition encode (s : string) : bytes := list_byte_of_string s.

(** pyOpenSSL [Connection.set_tlsext_host_name(name)]. *)
Definition set_tlsext_host_name (fd : nat) (name : bytes) : M unit :=
  if existsb (fun b => Byte.eqb b x00) name
  then mraise (TypeError "name must not contain NUL byte")
  else mret tt.

Definition request_ocsp (fd : nat) : M unit := mret tt.

(** [sock.connect((domain, port))] *)
Definition sock_connect (env : Env) (fd : nat) (domain : string) (port : Z) : M unit :=
  match srv_connect_error (env_network env domain) with
  | Some m => mraise (OSError m)
  | None => mret tt
  end.

(** [sock.do_handshake()]: the ServerHello carries the SCT extension reply
    when the client offered it (it does when the parse callback is
    registered), which OpenSSL hands to the callback: a result [<= 0] aborts
    the handshake.  The OCSP client callback, when registered, receives the
    stapled response. *)
Definition ssl_do_handshake (env : Env) (fd : nat) (domain : string) : M unit :=
  let srv := env_network env domain in
  ctx <- get_ctx ;;
  (if ctx_custom_ext_18 ctx then
     match srv_ext18_reply srv with
     | Some payload =>
         r <- cffi_int_callback (serverinfo_cli_parse_cb 18 payload (Z.of_nat (length payload))) ;;
         if (r <=? 0)%Z then mraise (SSLError "[('SSL routines', '', 'bad extension')]")
         else mret tt
     | None => mret tt
     end
   else mret tt) ;;
  ctx' <- get_ctx ;;
  (if ctx_ocsp_client_callback ctx' then
     ok <- ocsp_client_callback (srv_ocsp_staple srv) ;;
     if ok then mret tt else mraise (SSLError "[('SSL routines', '', 'invalid status response')]")
   else mret tt) ;;
  match srv_handshake_error srv with
  | Some m => mraise (SSLError m)
  | None => mret tt
  end.

(* ------------------------------------------------------------------ *)
(** ** [do_handshake] *)

Record TlsHandshakeResult := {
  ee_cert_der : option bytes;
  issuer_cert_der : option bytes;
  more_issuer_cert_der_candidates : list bytes;
  ocsp_resp_der : option bytes;
  tls_ext_18_tdf : option bytes;
  err : string }.

(** The local variables of [do_handshake] assigned inside its [try]. *)
Record HsLocals := {
  l_issuer_cert_x509 : option X509;
  l_more_issuer_cert_x509_candidates : list X509;
  l_ee_cert_x509 : option X509;
  l_ocsp_resp_der : option bytes;
  l_tls_ext_18_tdf : option bytes;
  l_err : string }.

Definition hs_locals_init : HsLocals :=
  {| l_issuer_cert_x509 := None; l_more_issuer_cert_x509_candidates := [];
     l_ee_cert_x509 := None; l_ocsp_resp_der := None; l_tls_ext_18_tdf := None; l_err := "" |}.

Definition bytes_attr_if_truthy (v : option bytes) : option bytes :=
  match v with Some b => if bytes_truthy b then Some b else None | None => None end.

(** The body of the [try] (lines 243-263).  Only [connect] and
    [do_handshake] raise, and they run before the first assignment, so the
    [except] clause sees the initial values of the locals. *)
Definition handshake_try_body (env : Env) (fd : nat) (domain : string) (port : Z)
    (scts_tls scts_ocsp : bool) : M HsLocals :=
  sock_connect env fd domain port ;;
  ssl_do_handshake env fd domain ;;
  let srv := env_network env domain in
  let ee_cert_x509 := srv_peer_certificate srv in
  let chain_x509s := srv_peer_cert_chain srv in
  let issuer_cert_x509 := if (1 <? length chain_x509s)%nat then nth_error chain_x509s 1 else None in
  let more_issuer_cert_x509_candidates := [ee_cert_x509] ++ chain_x509s in
  emit (Stdout ("debug: len(chain_x509s) = " ++ string_of_N (N.of_nat (length chain_x509s)))) ;;
  ctx <- get_ctx ;;
  let tls_ext_18_tdf := if scts_tls then bytes_attr_if_truthy (ctx_tls_ext_18_tdf ctx) else None in
  let ocsp_resp_der := if scts_ocsp then bytes_attr_if_truthy (ctx_ocsp_resp_der ctx) else None in
  mret {| l_issuer_cert_x509 := issuer_cert_x509;
          l_more_issuer_cert_x509_candidates := more_issuer_cert_x509_candidates;
          l_ee_cert_x509 := Some ee_cert_x509; l_ocsp_resp_der := ocsp_resp_der;
          l_tls_ext_18_tdf := tls_ext_18_tdf; l_err := "" |}.

Definition handshake_except (domain : string) (e : exc) : M HsLocals :=
  let exc_str := if str_truthy (exc_message e) then exc_message e else exc_type_name e in
  mret {| l_issuer_cert_x509 := None; l_more_issuer_cert_x509_candidates := [];
          l_ee_cert_x509 := None; l_ocsp_resp_der := None; l_tls_ext_18_tdf := None;
          l_err := domain ++ ": " ++ exc_str |}.

Definition do_handshake (env : Env) (domain : string) (port : Z) (scts_tls scts_ocsp : bool)
    (timeout : Z) : M TlsHandshakeResult :=
  create_context env scts_tls scts_ocsp timeout ;;
  sock <- create_socket ;;
  set_tlsext_host_name sock (encode domain) ;;
  request_ocsp sock ;;
  set_tlsext_host_name sock (encode domain) ;;
  l <- try_finally
         (try_except (handshake_try_body env sock domain port scts_tls scts_ocsp)
                     (handshake_except domain))
         (sock_close sock) ;;
  mret {| ee_cert_der := option_map dump_certificate (l_ee_cert_x509 l);
          issuer_cert_der := option_map dump_certificate (l_issuer_cert_x509 l);
          more_issuer_cert_der_candidates := map dump_certificate (l_more_issuer_cert_x509_candidates l);
          ocsp_resp_der := l_ocsp_resp_der l;
          tls_ext_18_tdf := l_tls_ext_18_tdf l;
          err := l_err l |}.

(** The lazy values of [TlsHandshakeResult] (lines 132-143). *)
Definition ee_cert (res : TlsHandshakeResult) : EndEntityCert := {| ee_der := ee_cert_der res |}.
Definition issuer_cert (res : TlsHandshakeResult) : IssuerCert := {| issuer_der := issuer_cert_der res |}.
Definition more_issuer_cert_candidates (res : TlsHandshakeResult) : list IssuerCert :=
  map (fun cert_der => {| issuer_der := Some cert_der |}) (more_issuer_cert_der_candidates res).

Definition scts_by_cert (res : TlsHandshakeResult) : result (list SignedCertificateTimestamp) :=
  match ee_cert_der res with
  | Some der => scts_from_cert der
  | None => Raise (TypeError "expected bytes, NoneType found")
  end.
Definition scts_by_ocsp (res : TlsHandshakeResult) : result (list SignedCertificateTimestamp) :=
  scts_from_ocsp_resp (ocsp_resp_der res).
Definition scts_by_tls (res : TlsHandshakeResult) : result (list SignedCertificateTimestamp) :=
  scts_from_tls_ext_18 (tls_ext_18_tdf res).

(* ------------------------------------------------------------------ *)
(** ** [ctzzy/scripts/verify_scts.py]: the verification tasks *)

Inductive verification_task := verify_scts_by_cert | verify_scts_by_tls | verify_scts_by_ocsp.

Definition task_eqb (a b : verification_task) : bool :=
  match a, b with
  | verify_scts_by_cert, verify_scts_by_cert
  | verify_scts_by_tls, verify_scts_by_tls
  | verify_scts_by_ocsp, verify_scts_by_ocsp => true
  | _, _ => false
  end.

(** [t in verification_tasks] *)
Definition task_in (t : verification_task) (ts : list verification_task) : bool :=
  existsb (task_eqb t) ts.

(** The [__name__] each task function is given (lines 151-153). *)
(** The [__qualname__] of the task's function, the name its [repr] shows
    (lines 151-153 change only [__name__]). *)
Definition task_function_name (t : verification_task) : string :=
  match t with
  | verify_scts_by_cert => "verify_scts_by_cert"
  | verify_scts_by_tls => "verify_scts_by_tls"
  | verify_scts_by_ocsp => "verify_scts_by_ocsp"
  end.

Definition task_name (t : verification_task) : string :=
  match t with
  | verify_scts_by_cert => "SCTs by Certificate"
  | verify_scts_by_tls => "SCTs by TLS"
  | verify_scts_by_ocsp => "SCTs by OCSP"
  end.

(** [verification_task(res, ctlogs)]: the keyword arguments are evaluated
    in order; only the lazy [scts_by_*] value can raise. *)
Definition call_verification_task (env : Env) (t : verification_task) (res : TlsHandshakeResult)
    (ctlogs : Logs) : result (list SctVerificationResult) :=
  match t with
  | verify_scts_by_cert =>
      let? scts := scts_by_cert res in
      env_verify_scts env (ee_cert res) scts ctlogs
        (Some (issuer_cert res)) (Some (more_issuer_cert_candidates res))
        create_signature_input_precert
  | verify_scts_by_tls =>
      let? scts := scts_by_tls res in
      env_verify_scts env (ee_cert res) scts ctlogs None None create_signature_input
  | verify_scts_by_ocsp =>
      let? scts := scts_by_ocsp res in
      env_verify_scts env (ee_cert res) scts ctlogs None None create_signature_input
  end.

Definition show_verification (v : SctVerificationResult) : M unit := emit (ShowVerification v).

Fixpoint show_verifications (vs : list SctVerificationResult) : M unit :=
  match vs with
  | [] => mret tt
  | v :: rest => show_verification v ;; show_verifications rest
  end.

(** [struct.unpack_from('!%ds' % n, buffer, offset)[0]] *)
Definition unpack_from_s (n : nat) (buffer : bytes) (offset : nat) : result bytes :=
  if (length buffer <? offset + n)%nat
  then Raise (StructError ("unpack_from requires a buffer of at least "
                           ++ string_of_N (N.of_nat (offset + n)) ++ " bytes for unpacking "
                           ++ string_of_N (N.of_nat n) ++ " bytes at offset "
                           ++ string_of_N (N.of_nat offset) ++ " (actual buffer size is "
                           ++ string_of_N (N.of_nat (length buffer)) ++ ")"))
  else Ok (firstn n (skipn offset buffer)).

(** The [while] loop of [show_signature_verbose] (lines 162-175), from
    [sig_offset]; [to_hex] is [ctzzy.utils.string.to_hex].  Each round reads
    at least one byte, so [length signature + 1] rounds of fuel suffice. *)
Fixpoint show_signature_verbose_loop (to_hex : bytes -> string) (fuel : nat)
    (signature : bytes) (sig_offset : nat) : M unit :=
  match fuel with
  | O => mret tt
  | S f =>
      if (sig_offset <? length signature)%nat then
        let bytes_to_read := if (16 <? length signature - sig_offset)%nat then 16%nat
                             else (length signature - sig_offset)%nat in
        sig_bytes <- lift (unpack_from_s bytes_to_read signature sig_offset) ;;
        (if Nat.eqb sig_offset 0
         then emit (LogVerbose ("Signature : " ++ to_hex sig_bytes))
         else emit (LogVerbose ("            " ++ to_hex sig_bytes))) ;;
        show_signature_verbose_loop to_hex f signature (sig_offset + bytes_to_read)
      else mret tt
  end.

(** [show_signature_verbose(signature)] (lines 156-175). *)
Definition show_signature_verbose (to_hex : bytes -> string) (signature : bytes) : M unit :=
  show_signature_verbose_loop to_hex (S (length signature)) signature 0.

(** The loop of lines 248-256. *)
Fixpoint run_verification_tasks (env : Env) (tasks : list verification_task) (ctlogs : Logs)
    (res : TlsHandshakeResult) : M unit :=
  match tasks with
  | [] => mret tt
  | verification_task :: rest =>
      emit (LogInfo ("## " ++ task_name verification_task ++ nl)) ;;
      emit (LogVerbose ("## " ++ task_name verification_task ++ nl)) ;;
      emit (TaskCalled (task_name verification_task)) ;;
      verifications <- lift (call_verification_task env verification_task res ctlogs) ;;
      (match verifications with
       | _ :: _ => show_verifications verifications
       | [] => match ee_cert_der res with
               | Some _ => emit (LogInfo ("no SCTs" ++ nl))
               | None => mret tt
               end
       end) ;;
      run_verification_tasks env rest ctlogs res
  end.

(** Lines 230-243: the certificate properties logged when a certificate
    was received. *)
Definition log_cert_properties (env : Env) (res : TlsHandshakeResult) : M unit :=
  match ee_cert_der res with
  | Some der =>
      if bytes_truthy der then
        emit (LogDebug ("got certificate" ++ nl)) ;;
        (if env_is_ev_cert env der
         then emit (LogInfo "* EV cert") ;; emit (LogVerbose "EV cert     : True")
         else emit (LogInfo "* no EV cert") ;; emit (LogVerbose "EV cert     : False")) ;;
        (if env_is_letsencrypt_cert env der
         then emit (LogInfo ("* issued by Let's Encrypt" ++ nl)) ;;
              emit (LogVerbose "issued by Let's Encrypt: True")
         else emit (LogInfo ("* not issued by Let's Encrypt" ++ nl)) ;;
              emit (LogVerbose "issued by Let's Encrypt: False"))
      else mret tt
  | None => mret tt
  end.

(** Lines 230-256: what [scrape_and_verify_scts] does with the result. *)
Definition report_and_verify (env : Env) (verification_tasks : list verification_task)
    (ctlogs : Logs) (res : TlsHandshakeResult) : M unit :=
  log_cert_properties env res ;;
  if str_truthy (err res) then emit (LogWarning (err res))
  else run_verification_tasks env verification_tasks ctlogs res.

Definition scrape_and_verify_scts (env : Env) (hostname : string)
    (verification_tasks : list verification_task) (ctlogs : Logs) : M unit :=
  emit (LogInfo ("# " ++ hostname ++ nl)) ;;
  res <- do_handshake env hostname 443
           (task_in verify_scts_by_tls verification_tasks)
           (task_in verify_scts_by_ocsp verification_tasks) 5 ;;
  report_and_verify env verification_tasks ctlogs res.

(* ------------------------------------------------------------------ *)
(** ** [main] *)

(** The attributes [parse_args()] puts in the namespace for the parser of
    [create_parser]. *)
Record Args := {
  a_domain_file : string;
  a_loglevel : Z;
  a_verification_tasks : list verification_task;
  a_fetch_ctlogs : log_list_source;
  a_log_list_filename : option string }.

(** The [const]s of the task options and the default (lines 56-73). *)
Definition all_tasks : list verification_task :=
  [verify_scts_by_cert; verify_scts_by_tls; verify_scts_by_ocsp].
Definition cert_only_tasks : list verification_task := [verify_scts_by_cert].
Definition tls_only_tasks : list verification_task := [verify_scts_by_tls].
Definition ocsp_only_tasks : list verification_task := [verify_scts_by_ocsp].

(** What argparse decides for the command line: a usage error (a missing
    [--domain-file], two options of one mutually exclusive group, an
    unknown option, ...), the [--version] action, or a namespace. *)
Inductive parse_args_outcome :=
| ArgparseError (message : string)
| ArgparseVersion
| ArgparseNamespace (args : Args).

(** [parser.parse_args()]: [parser.error] prints the usage and the message
    to stderr and exits with status 2; the version action prints the
    version and exits with status 0. *)
Definition parse_args (o : parse_args_outcome) : M Args :=
  match o with
  | ArgparseError m => emit (Stderr ("verify_scts.py: error: " ++ m)) ;; mraise (SystemExit 2)
  | ArgparseVersion => emit (Stdout "0.0.1") ;; mraise (SystemExit 0)
  | ArgparseNamespace a => mret a
  end.

Fixpoint strip_dashes (s : string) : string :=
  match s with
  | String "-" rest => strip_dashes rest
  | _ => s
  end.

Fixpoint dashes_to_underscores (s : string) : string :=
  match s with
  | EmptyString => EmptyString
  | String c rest => String (if Ascii.eqb c "-" then "_" else c) (dashes_to_underscores rest)
  end.

Definition is_long_option (s : string) : bool :=
  match s with
  | String "-" (String "-" _) => true
  | _ => false
  end.

(** argparse's [dest] of an optional argument given without [dest=]: the
    first long option string, else the first one, without its leading
    dashes and with the other dashes replaced by underscores. *)
Definition argparse_dest (option_strings : list string) : string :=
  let chosen := match filter is_long_option option_strings with
                | s :: _ => s
                | [] => hd EmptyString option_strings
                end in
  dashes_to_underscores (strip_dashes chosen).

(** [getattr(args, name)] on the namespace: the [dest] of each argument of
    [create_parser] (given with [dest=] or derived). *)
Definition namespace_getattr (a : Args) (name : string) : result pyval :=
  if String.eqb name (argparse_dest ["-v"; "--version"]) then Ok (PyBool false)
  else if String.eqb name (argparse_dest ["-df"; "--domain-file"]) then Ok (PyStr (a_domain_file a))
  else if String.eqb name "loglevel" then Ok (PyInt (a_loglevel a))
  else if String.eqb name "verification_tasks" then
    Ok (PyList (map (fun t => PyFunction (task_function_name t)) (a_verification_tasks a)))
  else if String.eqb name "fetch_ctlogs" then
    Ok (PyFunction (match a_fetch_ctlogs a with
                    | get_log_list => "get_log_list" | download_log_list => "download_log_list" end))
  else if String.eqb name "log_list_filename" then
    Ok (match a_log_list_filename a with Some f => PyStr f | None => PyNone end)
  else Raise (AttributeError ("'Namespace' object has no attribute '" ++ name ++ "'")).

(** The attributes of the namespace, sorted by name as [Namespace.__repr__]
    lists them. *)
Definition namespace_attr_names : list string :=
  ["domain_file"; "fetch_ctlogs"; "log_list_filename"; "loglevel"; "verification_tasks"; "version"].

Definition namespace_attrs (a : Args) : list (string * pyval) :=
  flat_map (fun n => match namespace_getattr a n with Ok v => [(n, v)] | Raise _ => [] end)
    namespace_attr_names.

(** [f.readline()] until it returns [''] : the lines with their newline. *)
Fixpoint readlines_fuel (fuel : nat) (s : string) : list string :=
  match fuel with
  | O => []
  | S f =>
      match s with
      | EmptyString => []
      | _ => match split_once nl s with
             | Some (line, rest) => (line ++ nl)%string :: readlines_fuel f rest
             | None => [s]
             end
      end
  end.

Definition readlines (s : string) : list string := readlines_fuel (S (String.length s)) s.

(** The [while host:] loop of lines 276-279. *)
Fixpoint process_hosts (env : Env) (hosts : list string) (tasks : list verification_task)
    (ctlogs : Logs) : M unit :=
  match hosts with
  | [] => mret tt
  | host :: rest => scrape_and_verify_scts env host tasks ctlogs ;; process_hosts env rest tasks ctlogs
  end.

(** Lines 274-282, for the path given by [args.df]. *)
Definition domain_file_step (env : Env) (df : string) (tasks : list verification_task)
    (ctlogs : Logs) : M unit :=
  match env_fs env df with
  | RegularFile readable contents =>
      if readable then process_hosts env (readlines contents) tasks ctlogs
      else mraise (OSError ("[Errno 13] Permission denied: '" ++ df ++ "'"))
  | NoEntry | DirEntry => emit (Stdout "Please enter the correct file!")
  end.

Definition main (env : Env) (argv : parse_args_outcome) : M unit :=
  emit LoggerInit ;;
  args <- parse_args argv ;;
  emit (LoggerSetup (a_loglevel args)) ;;
  emit (LogDebugNamespace (namespace_attrs args)) ;;
  all_logs <- lift (env_fetch_ctlogs env (a_fetch_ctlogs args)) ;;
  ctlogs <- (match a_log_list_filename args with
             | Some fn => if str_truthy fn then lift (env_read_log_list env fn) else mret all_logs
             | None => mret all_logs
             end) ;;
  df <- lift (namespace_getattr args "df") ;;
  match df with
  | PyStr path => domain_file_step env path (a_verification_tasks args) ctlogs
  | _ => mraise (TypeError "expected str, bytes or os.PathLike object")
  end.

(** The exit status of the interpreter after [main()]: 0 when it returns,
    the code of a [SystemExit], 1 after an uncaught exception. *)
Definition exit_status (r : result unit) : Z :=
  match r with
  | Ok _ => 0
  | Raise (SystemExit n) => n
  | Raise _ => 1
  end.

Definition initial_world : World :=
  {| w_ctx := empty_ctx; w_next_fd := 3; w_open := []; w_trace := [] |}.

Definition main_exit_status (env : Env) (argv : parse_args_outcome) (w : World) : Z :=
  exit_status (fst (main env argv w)).

(* ------------------------------------------------------------------ *)
(** ** Precertificate issuer candidates (ctzzy.sct.verification) *)

(** Modelled from the spec: the precert kind of [verify] (section 5) walks
    [issuer_candidates] in order, builds the signature input with each
    candidate's key hash and checks the signature; the first candidate that
    verifies is accepted and recorded.  [verifies c] stands for building the
    input with [c] and checking the SCT signature with the log key. *)
Fixpoint precert_matching_candidate (verifies : IssuerCert -> bool)
    (issuer_candidates : list IssuerCert) : option IssuerCert :=
  match issuer_candidates with
  | [] => None
  | c :: rest => if verifies c then Some c else precert_matching_candidate verifies rest
  end.

(* ------------------------------------------------------------------ *)
(** ** Observations on a run *)

(** The names of the verification tasks called, in order. *)
Fixpoint called_tasks (tr : list event) : list string :=
  match tr with
  | [] => []
  | TaskCalled n :: rest => n :: called_tasks rest
  | _ :: rest => called_tasks rest
  end.

(** The consecutive pieces of [n] elements of [l] (the last one shorter). *)
Fixpoint chunks_fuel {A} (fuel n : nat) (l : list A) : list (list A) :=
  match fuel with
  | O => []
  | S f => match l with
           | [] => []
           | _ :: _ => firstn n l :: chunks_fuel f n (skipn n l)
           end
  end.

Definition chunks16 (l : bytes) : list bytes := chunks_fuel (S (length l)) 16 l.

(** One verbose line per 16-byte piece of the signature: the first one
    labelled, the others indented. *)
Definition signature_lines (to_hex : bytes -> string) (signature : bytes) : list event :=
  match chunks16 signature with
  | [] => []
  | c :: cs => LogVerbose ("Signature : " ++ to_hex c)
               :: map (fun c' => LogVerbose ("            " ++ to_hex c')) cs
  end.

(** A statement that returns normally and calls no verification task. *)
Definition quiet (m : M unit) : Prop :=
  forall w, exists w1, m w = (Ok tt, w1) /\ called_tasks (w_trace w1) = called_tasks (w_trace w).

(* ------------------------------------------------------------------ *)
(** ** Concrete inputs *)

Definition der_seq (cs : list asn1) : asn1 := Cons x30 cs.
Definition der_oid (arcs : list N) : asn1 := Prim x06 (oid_content arcs).
Definition der_octets (c : bytes) : asn1 := Prim x04 c.
Definition der_int (n : N) : asn1 := Prim x02 [bN n].
Definition der_gtime (s : string) : asn1 := Prim x18 (list_byte_of_string s).

(** An rfc5280 [Extension] without [critical]. *)
Definition der_extension (oid : list N) (value : bytes) : asn1 :=
  der_seq [der_oid oid; der_octets value].

(** [ecdsa-with-SHA256] *)
Definition ecdsa_sha256 : asn1 := der_seq [der_oid [1; 2; 840; 10045; 4; 3; 2]%N].

(** A [Name] with the one attribute [commonName] (UTF8String [cn]). *)
Definition example_name (cn : string) : asn1 :=
  der_seq [Cons x31 [der_seq [der_oid [2; 5; 4; 3]%N; Prim x0c (list_byte_of_string cn)]]].

(** A version-3 certificate whose [extensions] are [exts] (the component
    is left out when [exts] is empty). *)
Definition example_cert_der (serial : N) (exts : list asn1) : bytes :=
  der_encode
    (der_seq [der_seq ([Cons xa0 [der_int 2]; der_int serial; ecdsa_sha256;
                        example_name "Example CA";
                        der_seq [Prim x17 (list_byte_of_string "200101000000Z");
                                 Prim x17 (list_byte_of_string "300101000000Z")];
                        example_name "example.com";
                        der_seq [der_seq [der_oid [1; 2; 840; 10045; 2; 1]%N;
                                          der_oid [1; 2; 840; 10045; 3; 1; 7]%N];
                                 Prim x03 [x00; x04; x01; x02]]]
                       ++ match exts with [] => [] | _ => [Cons xa3 [der_seq exts]] end);
              ecdsa_sha256;
              Prim x03 [x00; x01; x02]]).

(** An SctList holding the one SCT [00 01 02 03]: not printable ASCII. *)
Definition small_sctlist : bytes := [x00; x06; x00; x04; x00; x01; x02; x03].

(** An SctList holding one SCT of 8224 bytes ['A']: every byte of the list
    ([20 22 20 20 41 ... 41]) is printable ASCII. *)
Definition printable_sctlist : bytes := [x20; x22; x20; x20] ++ repeat x41 8224.

Definition sct_extension (sctlist : bytes) : asn1 :=
  der_extension sctlist_oid (der_encode (der_octets sctlist)).

Definition leaf_der : bytes := example_cert_der 7 [sct_extension small_sctlist].
Definition printable_leaf_der : bytes := example_cert_der 8 [sct_extension printable_sctlist].
Definition intermediate_der : bytes := example_cert_der 9 [].

(** A certificate whose one extension is [basicConstraints] (empty). *)
Definition basic_constraints_der : bytes :=
  example_cert_der 10 [der_extension [2; 5; 29; 19]%N (der_encode (der_seq []))].

(** A [BasicOCSPResponse] with one [SingleResponse] whose
    [singleExtensions] are [exts], inside an [OCSPResponse]. *)
Definition example_ocsp_der (exts : list asn1) : bytes :=
  let single := der_seq [der_seq [der_seq [der_oid [1; 3; 14; 3; 2; 26]%N; Prim x05 []];
                                  der_octets (repeat x01 4); der_octets (repeat x02 4); der_int 7];
                         Prim x80 [];
                         der_gtime "20200405000000Z";
                         Cons xa1 [der_seq exts]] in
  let basic := der_seq [der_seq [Cons xa2 [der_octets (repeat x03 4)];
                                 der_gtime "20200405000000Z";
                                 der_seq [single]];
                        der_seq [der_oid [1; 2; 840; 10045; 4; 3; 2]%N];
                        Prim x03 [x00; x01; x02]] in
  der_encode (der_seq [Prim x0a [x00];
                       Cons xa0 [der_seq [der_oid [1; 3; 6; 1; 5; 5; 7; 48; 1; 1]%N;
                                          der_octets (der_encode basic)]]]).

(** The SCT-list extension of OCSP, [1.3.6.1.4.1.11129.2.4.5]. *)
Definition ocsp_sct_extension (sctlist : bytes) : asn1 :=
  der_extension [1; 3; 6; 1; 4; 1; 11129; 2; 4; 5]%N (der_encode (der_octets sctlist)).

(** An extension with the different OID [1.3.6.1.4.1.11129.2.4.50]. *)
Definition oid_2_4_50_extension (value : bytes) : asn1 :=
  der_extension [1; 3; 6; 1; 4; 1; 11129; 2; 4; 50]%N (der_encode (der_octets value)).

Definition ocsp_with_sctlist_der : bytes := example_ocsp_der [ocsp_sct_extension small_sctlist].
Definition ocsp_with_oid_2_4_50_der : bytes := example_ocsp_der [oid_2_4_50_extension small_sctlist].

(** A peer presenting [leaf] and the chain [leaf; intermediate], as
    [get_peer_cert_chain()] returns it on the client side. *)
Definition example_server (leaf : bytes) (ext18 : option bytes) (staple : bytes) : Server :=
  {| srv_connect_error := None; srv_ext18_reply := ext18; srv_ocsp_staple := staple;
     srv_handshake_error := None;
     srv_peer_certificate := {| x509_der := leaf |};
     srv_peer_cert_chain := [{| x509_der := leaf |}; {| x509_der := intermediate_der |}] |}.

Definition example_env (srv : Server) (fs : string -> fs_entry) : Env :=
  {| env_network := fun _ => srv;
     env_custom_ext_ok := true;
     env_is_ev_cert := fun _ => false;
     env_is_letsencrypt_cert := fun _ => false;
     env_verify_scts := fun _ scts _ _ _ _ =>
                          Ok (map (fun s => {| vr_sct := s; vr_log := None; vr_verified := false |}) scts);
     env_fetch_ctlogs := fun _ => Ok [];
     env_read_log_list := fun _ => Ok [];
     env_fs := fs |}.

Definition plain_env : Env := example_env (example_server leaf_der None []) (fun _ => NoEntry).

(** A host name with a NUL character, as a line of the domain file may hold. *)
Definition nul_domain : string := "example" ++ String (ascii_of_nat 0) ".com".

Definition example_args (df : string) : Args :=
  {| a_domain_file := df; a_loglevel := 15; a_verification_tasks := all_tasks;
     a_fetch_ctlogs := get_log_list; a_log_list_filename := None |}.

Definition unreadable_env : Env :=
  example_env (example_server leaf_der None []) (fun _ => RegularFile false "example.com").

Definition printable_env : Env :=
  example_env (example_server printable_leaf_der None []) (fun _ => NoEntry).

Definition ext18_env : Env :=
  example_env (example_server leaf_der (Some ([x00; x08] ++ small_sctlist)) []) (fun _ => NoEntry).

(** A host whose [connect] fails. *)
Definition refused_env : Env :=
  example_env {| srv_connect_error := Some "[Errno 111] Connection refused";
                 srv_ext18_reply := None; srv_ocsp_staple := []; srv_handshake_error := None;
                 srv_peer_certificate := {| x509_der := leaf_der |};
                 srv_peer_cert_chain := [] |} (fun _ => NoEntry).

(** [plain_env] where [SSL_CTX_add_client_custom_ext] fails. *)
Definition no_custom_ext_env : Env :=
  {| env_network := env_network plain_env;
     env_custom_ext_ok := false;
     env_is_ev_cert := env_is_ev_cert plain_env;
     env_is_letsencrypt_cert := env_is_letsencrypt_cert plain_env;
     env_verify_scts := env_verify_scts plain_env;
     env_fetch_ctlogs := env_fetch_ctlogs plain_env;
     env_read_log_list := env_read_log_list plain_env;
     env_fs := env_fs plain_env |}.

(** A peer stapling an OCSP response (here [successful] without
    [responseBytes]). *)
Definition staple_env : Env :=
  example_env (example_server leaf_der None [x30; x03; x0a; x01; x00]) (fun _ => NoEntry).

(** What [do_handshake] returns for [plain_env]. *)
Definition plain_handshake_result : TlsHandshakeResult :=
  {| ee_cert_der := Some leaf_der; issuer_cert_der := Some intermediate_der;
     more_issuer_cert_der_candidates := [leaf_der; leaf_der; intermediate_der];
     ocsp_resp_der := None; tls_ext_18_tdf := None; err := "" |}.

(* ================================================================== *)
(** * Properties *)

(** ** Monad lemmas *)

Lemma mbind_ok {A B} (m : M A) (k : A -> M B) w b w' :
  mbind m k w = (Ok b, w') -> exists a w1, m w = (Ok a, w1) /\ k a w1 = (Ok b, w').
Proof.
  unfold mbind. destruct (m w) as [[a|e] w1]; intros H; [eauto | discriminate].
Qed.

Lemma mbind_step {A B} (m : M A) (k : A -> M B) w a w1 :
  m w = (Ok a, w1) -> mbind m k w = k a w1.
Proof. unfold mbind. intros ->. reflexivity. Qed.

Lemma mbind_raise {A B} (m : M A) (k : A -> M B) w e w1 :
  m w = (Raise e, w1) -> mbind m k w = (Raise e, w1).
Proof. unfold mbind. intros ->. reflexivity. Qed.

Lemma try_except_ok {A} (m : M A) h w a w1 :
  try_except m h w = (Ok a, w1) ->
  m w = (Ok a, w1) \/ exists e w2, m w = (Raise e, w2) /\ h e w2 = (Ok a, w1).
Proof.
  unfold try_except. destruct (m w) as [[a'|e] w2]; intros H.
  - left. exact H.
  - destruct (is_exception e); [right; eauto | discriminate].
Qed.

Lemma try_finally_ok {A} (m : M A) fin w a w' :
  try_finally m fin w = (Ok a, w') -> exists w1, m w = (Ok a, w1).
Proof.
  unfold try_finally. destruct (m w) as [r w1].
  destruct (fin w1) as [[u|e] w2]; intros H; [injection H as -> _; eauto | discriminate].
Qed.

Ltac peel H := cbv beta zeta in H; apply mbind_ok in H as (? & ? & ? & H).

(** ** [do_handshake] *)

Lemma handshake_try_body_ok env fd domain port scts_tls scts_ocsp w l w1 :
  handshake_try_body env fd domain port scts_tls scts_ocsp w = (Ok l, w1) ->
  l_err l = "" /\
  l_ee_cert_x509 l = Some (srv_peer_certificate (env_network env domain)) /\
  l_issuer_cert_x509 l =
    (if (1 <? length (srv_peer_cert_chain (env_network env domain)))%nat
     then nth_error (srv_peer_cert_chain (env_network env domain)) 1 else None) /\
  l_more_issuer_cert_x509_candidates l =
    srv_peer_certificate (env_network env domain) :: srv_peer_cert_chain (env_network env domain) /\
  (scts_tls = false -> l_tls_ext_18_tdf l = None) /\
  (scts_ocsp = false -> l_ocsp_resp_der l = None).
Proof.
  unfold handshake_try_body. intros H.
  peel H. peel H. peel H. peel H.
  unfold mret in H. injection H as <- _. cbn.
  repeat split; intros ->; reflexivity.
Qed.

Lemma handshake_except_ok domain e w l w1 :
  handshake_except domain e w = (Ok l, w1) ->
  l_err l <> "" /\ l_ee_cert_x509 l = None /\ l_issuer_cert_x509 l = None /\
  l_more_issuer_cert_x509_candidates l = [] /\ l_tls_ext_18_tdf l = None /\ l_ocsp_resp_der l = None.
Proof.
  unfold handshake_except, mret. intros H. injection H as <- _. cbn.
  repeat split. destruct domain; discriminate.
Qed.

(** What a [TlsHandshakeResult] returned by [do_handshake] holds: either
    the [try] body completed ([err] empty) or an exception was caught
    ([err] set, nothing else). *)
Lemma do_handshake_result env domain port scts_tls scts_ocsp timeout w res :
  fst (do_handshake env domain port scts_tls scts_ocsp timeout w) = Ok res ->
  (err res = "" /\
   ee_cert_der res = Some (dump_certificate (srv_peer_certificate (env_network env domain))) /\
   issuer_cert_der res =
     option_map dump_certificate
       (if (1 <? length (srv_peer_cert_chain (env_network env domain)))%nat
        then nth_error (srv_peer_cert_chain (env_network env domain)) 1 else None) /\
   more_issuer_cert_der_candidates res =
     map dump_certificate
       (srv_peer_certificate (env_network env domain) :: srv_peer_cert_chain (env_network env domain)) /\
   (scts_tls = false -> tls_ext_18_tdf res = None) /\
   (scts_ocsp = false -> ocsp_resp_der res = None))
  \/
  (err res <> "" /\ ee_cert_der res = None /\ issuer_cert_der res = None /\
   more_issuer_cert_der_candidates res = [] /\ tls_ext_18_tdf res = None /\ ocsp_resp_der res = None).
Proof.
  intros Hres.
  destruct (do_handshake env domain port scts_tls scts_ocsp timeout w) as [r w'] eqn:E.
  cbn in Hres. subst r. unfold do_handshake in E.
  peel E. peel E. peel E. peel E. peel E. peel E.
  unfold mret in E. injection E as <- _.
  match goal with H : try_finally _ _ _ = (Ok _, _) |- _ => rename H into Hf end.
  apply try_finally_ok in Hf as [w2 Hf].
  apply try_except_ok in Hf as [Hb | (e & w3 & _ & Hb)].
  - apply handshake_try_body_ok in Hb as (R1 & R2 & R3 & R4 & R5 & R6).
    left. cbn. rewrite R1, R2, R3, R4. repeat split; auto.
  - apply handshake_except_ok in Hb as (R1 & R2 & R3 & R4 & R5 & R6).
    right. cbn. rewrite R2, R3, R4, R5, R6. repeat split; auto.
Qed.

(** [create_context] registers a callback only when its flag is set. *)
Lemma create_context_registers env scts_tls scts_ocsp timeout w u w1 :
  create_context env scts_tls scts_ocsp timeout w = (Ok u, w1) ->
  (scts_tls = false -> ctx_custom_ext_18 (w_ctx w1) = false) /\
  (scts_ocsp = false -> ctx_ocsp_client_callback (w_ctx w1) = false).
Proof.
  unfold create_context. intros H.
  split; intros ->.
  - cbn in H. destruct scts_ocsp; cbn in H; injection H as _ <-; reflexivity.
  - destruct scts_tls; [destruct (env_custom_ext_ok env) |]; cbn in H;
      try discriminate; injection H as _ <-; reflexivity.
Qed.

(** ** Which verification tasks run *)

Lemma called_tasks_app tr1 tr2 :
  called_tasks (tr1 ++ tr2) = called_tasks tr1 ++ called_tasks tr2.
Proof.
  induction tr1 as [|e tr1 IH]; [reflexivity|].
  destruct e; cbn; rewrite ?IH; reflexivity.
Qed.

Lemma quiet_ret : quiet (mret tt).
Proof. intros w. exists w. split; reflexivity. Qed.

Lemma quiet_emit e : (forall n, e <> TaskCalled n) -> quiet (emit e).
Proof.
  intros He w. eexists. split; [reflexivity|]. cbn.
  rewrite called_tasks_app.
  destruct e; cbn; rewrite ?app_nil_r; try reflexivity.
  exfalso. eapply He. reflexivity.
Qed.

Lemma quiet_seq (m k : M unit) : quiet m -> quiet k -> quiet (m ;; k).
Proof.
  intros Hm Hk w. destruct (Hm w) as (w1 & E1 & T1). destruct (Hk w1) as (w2 & E2 & T2).
  exists w2. rewrite (mbind_step _ _ _ _ _ E1). split; [exact E2 | congruence].
Qed.

Lemma quiet_show_verifications vs : quiet (show_verifications vs).
Proof.
  induction vs as [|v vs IH]; cbn.
  - apply quiet_ret.
  - apply quiet_seq; [apply quiet_emit; discriminate | exact IH].
Qed.

Ltac quiet_tac :=
  repeat match goal with
         | |- quiet (mbind _ (fun _ => _)) => apply quiet_seq
         | |- quiet (emit _) => apply quiet_emit; discriminate
         | |- quiet (mret tt) => apply quiet_ret
         | |- quiet (if ?b then _ else _) => destruct b
         | |- quiet (match ?x with _ => _ end) => destruct x
         end.

Lemma quiet_log_cert_properties env res : quiet (log_cert_properties env res).
Proof. unfold log_cert_properties. quiet_tac. Qed.

(** One round of the task loop: the task is named, called, and its
    results shown. *)
Lemma run_verification_tasks_cons env t rest ctlogs res w :
  run_verification_tasks env (t :: rest) ctlogs res w =
  let w1 := {| w_ctx := w_ctx w; w_next_fd := w_next_fd w; w_open := w_open w;
               w_trace := w_trace w ++ [LogInfo ("## " ++ task_name t ++ nl);
                                        LogVerbose ("## " ++ task_name t ++ nl);
                                        TaskCalled (task_name t)] |} in
  match call_verification_task env t res ctlogs with
  | Raise e => (Raise e, w1)
  | Ok verifications =>
      ((match verifications with
        | _ :: _ => show_verifications verifications
        | [] => match ee_cert_der res with
                | Some _ => emit (LogInfo ("no SCTs" ++ nl))
                | None => mret tt
                end
        end) ;; run_verification_tasks env rest ctlogs res) w1
  end.
Proof.
  cbn [run_verification_tasks]. unfold mbind at 1 2 3 4. cbn.
  rewrite <- !app_assoc. cbn.
  destruct (call_verification_task env t res ctlogs); reflexivity.
Qed.

Lemma run_verification_tasks_all_ok env tasks ctlogs res w :
  (forall t, In t tasks -> exists vs, call_verification_task env t res ctlogs = Ok vs) ->
  exists w1, run_verification_tasks env tasks ctlogs res w = (Ok tt, w1) /\
             called_tasks (w_trace w1) = called_tasks (w_trace w) ++ map task_name tasks.
Proof.
  revert w. induction tasks as [|t rest IH]; intros w Hok.
  - exists w. cbn. rewrite app_nil_r. split; reflexivity.
  - rewrite run_verification_tasks_cons. cbv zeta.
    destruct (Hok t (or_introl eq_refl)) as [vs Hvs]. rewrite Hvs.
    set (w1 := {| w_ctx := _ |}).
    assert (Hq : quiet (match vs with
                        | _ :: _ => show_verifications vs
                        | [] => match ee_cert_der res with
                                | Some _ => emit (LogInfo ("no SCTs" ++ nl))
                                | None => mret tt
                                end
                        end)).
    { destruct vs; [destruct (ee_cert_der res); quiet_tac | apply quiet_show_verifications]. }
    destruct (Hq w1) as (w2 & E2 & T2).
    destruct (IH w2) as (w3 & E3 & T3).
    { intros t' Hin. apply Hok. right. exact Hin. }
    exists w3. rewrite (mbind_step _ _ _ _ _ E2). split; [exact E3|].
    rewrite T3, T2. unfold w1. cbn. rewrite !called_tasks_app. cbn.
    rewrite <- app_assoc. reflexivity.
Qed.

Lemma run_verification_tasks_raise env pre t post ctlogs res w e :
  (forall p, In p pre -> exists vs, call_verification_task env p res ctlogs = Ok vs) ->
  call_verification_task env t res ctlogs = Raise e ->
  exists w1, run_verification_tasks env (pre ++ t :: post) ctlogs res w = (Raise e, w1) /\
             called_tasks (w_trace w1) = called_tasks (w_trace w) ++ map task_name (pre ++ [t]).
Proof.
  revert w. induction pre as [|p pre IH]; intros w Hok Ht.
  - cbn [app]. rewrite run_verification_tasks_cons, Ht. cbv zeta.
    eexists. split; [reflexivity|]. cbn. rewrite called_tasks_app. reflexivity.
  - cbn [app]. rewrite run_verification_tasks_cons. cbv zeta.
    destruct (Hok p (or_introl eq_refl)) as [vs Hvs]. rewrite Hvs.
    set (w1 := {| w_ctx := _ |}).
    assert (Hq : quiet (match vs with
                        | _ :: _ => show_verifications vs
                        | [] => match ee_cert_der res with
                                | Some _ => emit (LogInfo ("no SCTs" ++ nl))
                                | None => mret tt
                                end
                        end)).
    { destruct vs; [destruct (ee_cert_der res); quiet_tac | apply quiet_show_verifications]. }
    destruct (Hq w1) as (w2 & E2 & T2).
    destruct (IH w2) as (w3 & E3 & T3).
    { intros p' Hin. apply Hok. right. exact Hin. }
    { exact Ht. }
    exists w3. rewrite (mbind_step _ _ _ _ _ E2). split; [exact E3|].
    rewrite T3, T2. unfold w1. cbn. rewrite !called_tasks_app. cbn.
    rewrite <- app_assoc. reflexivity.
Qed.

(** ** Issuer candidates *)

Lemma precert_matching_candidate_first verifies cands c :
  precert_matching_candidate verifies cands = Some c ->
  exists pre post, cands = pre ++ c :: post /\ verifies c = true /\
                   Forall (fun p => verifies p = false) pre.
Proof.
  induction cands as [|d cands IH]; cbn; [discriminate|].
  destruct (verifies d) eqn:Hd; intros H.
  - injection H as <-. exists [], cands. auto.
  - destruct (IH H) as (pre & post & -> & Hc & Hpre).
    exists (d :: pre), post. auto.
Qed.

(** ** [main] *)

(** [main] sets up logging, logs the namespace and reads [args.df], an
    attribute the namespace does not have: the [dest] of
    [-df/--domain-file] is [domain_file]. *)
Lemma main_reads_args_df env a w logs :
  env_fetch_ctlogs env (a_fetch_ctlogs a) = Ok logs ->
  (forall fn, a_log_list_filename a = Some fn -> str_truthy fn = true ->
              exists l, env_read_log_list env fn = Ok l) ->
  main env (ArgparseNamespace a) w =
    (Raise (AttributeError "'Namespace' object has no attribute 'df'"),
     {| w_ctx := w_ctx w; w_next_fd := w_next_fd w; w_open := w_open w;
        w_trace := w_trace w ++ [LoggerInit; LoggerSetup (a_loglevel a);
                                 LogDebugNamespace (namespace_attrs a)] |}).
Proof.
  intros Hf Hr. unfold main, mbind, emit, lift, mret. cbn [parse_args]. unfold mret. rewrite Hf.
  destruct (a_log_list_filename a) as [fn|] eqn:Hfn.
  - destruct (str_truthy fn) eqn:Ht.
    + destruct (Hr fn eq_refl Ht) as [l Hl]. rewrite Hl. cbn. rewrite <- !app_assoc. reflexivity.
    + cbn. rewrite <- !app_assoc. reflexivity.
  - cbn. rewrite <- !app_assoc. reflexivity.
Qed.

(** ** Supporting examples *)

(** With the call [reduce(reduce_func, [...], initializer)], the callback
    would store [u16 18 || u16 inlen || payload]. *)
Lemma reduce_call_stores_framing_example :
  ctx_tls_ext_18_tdf
    (w_ctx (snd (serverinfo_cli_parse_cb_reduce_call 18 ([x00; x08] ++ small_sctlist) 10 initial_world)))
  = Some ([x00; x12; x00; x0a] ++ [x00; x08] ++ small_sctlist).
Proof. vm_compute. reflexivity. Qed.

(** A server that answers the extension-18 offer makes the handshake fail. *)
Lemma ext18_reply_aborts_handshake_example :
  fst (do_handshake ext18_env "example.com" 443 true true 5 initial_world) =
  Ok {| ee_cert_der := None; issuer_cert_der := None; more_issuer_cert_der_candidates := [];
        ocsp_resp_der := None; tls_ext_18_tdf := None;
        err := "example.com: [('SSL routines', '', 'bad extension')]" |}.
Proof. vm_compute. reflexivity. Qed.

Lemma create_context_next_fd env scts_tls scts_ocsp timeout w u w1 :
  create_context env scts_tls scts_ocsp timeout w = (Ok u, w1) -> w_next_fd w1 = w_next_fd w.
Proof.
  unfold create_context. intros H.
  destruct scts_tls; [destruct (env_custom_ext_ok env) |]; destruct scts_ocsp; cbn in H;
    try discriminate; injection H as _ <-; reflexivity.
Qed.

(** Once the host name is set, every path through the [try] closes the
    socket: when [do_handshake] returns, its socket is no longer open. *)
Lemma do_handshake_closes_socket env domain port scts_tls scts_ocsp timeout w res w' :
  do_handshake env domain port scts_tls scts_ocsp timeout w = (Ok res, w') ->
  ~ In (w_next_fd w) (w_open w').
Proof.
  unfold do_handshake. intros E.
  apply mbind_ok in E as (u & w1 & Hc & E). cbv beta in E.
  apply mbind_ok in E as (fd & w2 & Hs & E). cbv beta in E.
  apply mbind_ok in E as (u2 & w3 & Hn1 & E). cbv beta in E.
  apply mbind_ok in E as (u3 & w4 & Hr & E). cbv beta in E.
  apply mbind_ok in E as (u4 & w5 & Hn2 & E). cbv beta in E.
  apply mbind_ok in E as (l & w6 & Hf & E).
  unfold mret in E. injection E as _ <-.
  apply create_context_next_fd in Hc.
  unfold create_socket in Hs. injection Hs as <- _.
  unfold try_finally in Hf.
  destruct (try_except _ _ w5) as [r w7].
  cbn in Hf. injection Hf as _ <-. cbn.
  rewrite filter_In, Hc, Nat.eqb_refl. intros [_ Hfalse]. discriminate Hfalse.
Qed.

(* ------------------------------------------------------------------ *)
(** ** The claims *)

(** C1: the certificate task passes the certificate's SCTs, the issuer
    certificate, the issuer candidates and the precert signature-input
    builder to [verify_scts]; the TLS and OCSP tasks pass their SCTs, no
    issuer, no candidates and the leaf builder. *)
Theorem C1_task_arguments env res ctlogs :
  call_verification_task env verify_scts_by_cert res ctlogs =
    (let? scts := scts_by_cert res in
     env_verify_scts env (ee_cert res) scts ctlogs (Some (issuer_cert res))
       (Some (more_issuer_cert_candidates res)) create_signature_input_precert) /\
  call_verification_task env verify_scts_by_tls res ctlogs =
    (let? scts := scts_by_tls res in
     env_verify_scts env (ee_cert res) scts ctlogs None None create_signature_input) /\
  call_verification_task env verify_scts_by_ocsp res ctlogs =
    (let? scts := scts_by_ocsp res in
     env_verify_scts env (ee_cert res) scts ctlogs None None create_signature_input).
Proof. repeat split. Qed.

(** C2 (as amended): after a successful handshake the issuer candidates
    are the end-entity certificate followed by the presented chain in
    presentation order, and the precert verification accepts the first
    candidate, in that order, that verifies. *)
Theorem C2_candidates_ee_then_chain env domain port scts_tls scts_ocsp timeout w res :
  fst (do_handshake env domain port scts_tls scts_ocsp timeout w) = Ok res ->
  err res = "" ->
  more_issuer_cert_der_candidates res =
    dump_certificate (srv_peer_certificate (env_network env domain))
      :: map dump_certificate (srv_peer_cert_chain (env_network env domain)) /\
  (forall verifies c,
     precert_matching_candidate verifies (more_issuer_cert_candidates res) = Some c ->
     exists pre post, more_issuer_cert_candidates res = pre ++ c :: post /\
                      verifies c = true /\ Forall (fun p => verifies p = false) pre).
Proof.
  intros H He.
  destruct (do_handshake_result _ _ _ _ _ _ _ _ H) as [(_ & _ & _ & Hc & _) | (Hn & _)];
    [| contradiction].
  split; [exact Hc | intros verifies c; apply precert_matching_candidate_first].
Qed.

Lemma C2_candidates_ee_then_chain_witness :
  fst (do_handshake plain_env "example.com" 443 true true 5 initial_world) = Ok plain_handshake_result /\
  more_issuer_cert_der_candidates plain_handshake_result = [leaf_der; leaf_der; intermediate_der].
Proof.
  assert (H : fst (do_handshake plain_env "example.com" 443 true true 5 initial_world)
              = Ok plain_handshake_result) by (vm_compute; reflexivity).
  split; [exact H|].
  destruct (C2_candidates_ee_then_chain plain_env "example.com" 443 true true 5 initial_world
              plain_handshake_result H eq_refl) as [Hc _].
  exact Hc.
Defined.

(** C2 fails as stated: for the chain [leaf; intermediate] the candidates
    are [leaf; leaf; intermediate], not the chain with the end-entity
    certificate appended last. *)
Lemma C2_candidates_counterexample :
  fst (do_handshake plain_env "example.com" 443 true true 5 initial_world) = Ok plain_handshake_result /\
  err plain_handshake_result = "" /\
  more_issuer_cert_der_candidates plain_handshake_result <>
    map dump_certificate (srv_peer_cert_chain (env_network plain_env "example.com"))
      ++ [dump_certificate (srv_peer_certificate (env_network plain_env "example.com"))].
Proof.
  split; [vm_compute; reflexivity|]. split; [reflexivity|].
  intros H. apply (f_equal (fun l => nth 1 l [])) in H. vm_compute in H. discriminate H.
Qed.

(** C3 (as amended): when [err] is set no task runs and the error is
    logged as a warning, returning normally; when [err] is empty the tasks
    run in order: all of them when none raises, and up to and including
    the first one that raises, whose exception propagates. *)
Theorem C3_tasks_run_until_one_raises env tasks ctlogs res w :
  (str_truthy (err res) = true ->
     fst (report_and_verify env tasks ctlogs res w) = Ok tt /\
     called_tasks (w_trace (snd (report_and_verify env tasks ctlogs res w))) = called_tasks (w_trace w) /\
     In (LogWarning (err res)) (w_trace (snd (report_and_verify env tasks ctlogs res w)))) /\
  (err res = "" ->
     (forall t, In t tasks -> exists vs, call_verification_task env t res ctlogs = Ok vs) ->
     fst (report_and_verify env tasks ctlogs res w) = Ok tt /\
     called_tasks (w_trace (snd (report_and_verify env tasks ctlogs res w)))
       = called_tasks (w_trace w) ++ map task_name tasks) /\
  (err res = "" ->
     forall pre t post e, tasks = pre ++ t :: post ->
     (forall p, In p pre -> exists vs, call_verification_task env p res ctlogs = Ok vs) ->
     call_verification_task env t res ctlogs = Raise e ->
     fst (report_and_verify env tasks ctlogs res w) = Raise e /\
     called_tasks (w_trace (snd (report_and_verify env tasks ctlogs res w)))
       = called_tasks (w_trace w) ++ map task_name (pre ++ [t])).
Proof.
  destruct (quiet_log_cert_properties env res w) as (w1 & E1 & T1).
  unfold report_and_verify. rewrite (mbind_step _ _ _ _ _ E1). cbv beta.
  split; [|split].
  - intros He. rewrite He. cbn. rewrite called_tasks_app, T1, app_nil_r.
    split; [reflexivity|]. split; [reflexivity|].
    apply in_or_app. right. left. reflexivity.
  - intros He Hok. rewrite He. cbn [str_truthy].
    destruct (run_verification_tasks_all_ok env tasks ctlogs res w1 Hok) as (w2 & E2 & T2).
    rewrite E2. cbn. rewrite T2, T1. split; reflexivity.
  - intros He pre t post e -> Hpre Ht. rewrite He. cbn [str_truthy].
    destruct (run_verification_tasks_raise env pre t post ctlogs res w1 e Hpre Ht) as (w2 & E2 & T2).
    rewrite E2. cbn. rewrite T2, T1. split; reflexivity.
Qed.

Lemma C3_tasks_run_until_one_raises_witness :
  fst (report_and_verify plain_env all_tasks [] plain_handshake_result initial_world) = Ok tt /\
  called_tasks (w_trace (snd (report_and_verify plain_env all_tasks [] plain_handshake_result initial_world)))
    = ["SCTs by Certificate"; "SCTs by TLS"; "SCTs by OCSP"].
Proof.
  destruct (C3_tasks_run_until_one_raises plain_env all_tasks [] plain_handshake_result initial_world)
    as (_ & H & _).
  apply H; [reflexivity|].
  intros t Ht. destruct Ht as [<- | [<- | [<- | []]]]; eexists; vm_compute; reflexivity.
Defined.

(** C3 fails as stated: the handshake succeeds ([err] empty), but the
    certificate task raises while extracting its SCTs, so the TLS and OCSP
    tasks are never called. *)
Lemma C3_raising_task_counterexample :
  match fst (do_handshake printable_env "example.com" 443 true true 5 initial_world) with
  | Ok res => err res = ""
  | Raise _ => False
  end /\
  fst (scrape_and_verify_scts printable_env "example.com" all_tasks [] initial_world)
    = Raise (BinasciiError "Non-hexadecimal digit found") /\
  called_tasks (w_trace (snd (scrape_and_verify_scts printable_env "example.com" all_tasks [] initial_world)))
    = ["SCTs by Certificate"].
Proof. vm_compute. repeat split. Qed.

(** C4 (code bug): the extension-18 parse callback never stores anything:
    it subscripts the function [reduce_func] and raises [TypeError]; cffi
    turns the exception into the return value 0 and the context keeps no
    [tls_ext_18_tdf]. *)
Theorem C4_parse_cb_never_stores_tdf in_ inlen w :
  serverinfo_cli_parse_cb 18 in_ inlen w
    = (Raise (TypeError "'function' object is not subscriptable"), w) /\
  fst (cffi_int_callback (serverinfo_cli_parse_cb 18 in_ inlen) w) = Ok 0%Z /\
  w_ctx (snd (cffi_int_callback (serverinfo_cli_parse_cb 18 in_ inlen) w)) = w_ctx w.
Proof. repeat split. Qed.

(** C5 (code bug): the certificate's SCT-list extension decodes once to a
    well-formed SctList of one SCT, but since all its bytes are printable
    ASCII the pretty-printed text is not hex and [scts_from_cert] raises. *)
Theorem C5_printable_sctlist_raises :
  decode_certificate printable_leaf_der =
    Ok {| tbsCertificate := {| tbs_extensions :=
            Some [{| extnID := sctlist_oid; critical := false;
                     extnValue := der_encode (der_octets printable_sctlist) |}] |} |} /\
  der_decode_octet_string (der_encode (der_octets printable_sctlist)) = Ok printable_sctlist /\
  sct_list printable_sctlist = Ok [{| sct_der := repeat x41 8224 |}] /\
  scts_from_cert printable_leaf_der = Raise (BinasciiError "Non-hexadecimal digit found").
Proof. split; [|split; [|split]]; vm_compute; reflexivity. Qed.

(** C6 (code bug): the OCSP response below carries, in its one
    [singleExtensions], the SCT-list extension [1.3.6.1.4.1.11129.2.4.5]
    holding a well-formed SctList of one SCT, yet [scts_from_ocsp_resp]
    returns no SCT: the pretty-printed response names the record components
    [field-0], [field-1], ..., so the searched text
    [<no-name>=1.3.6.1.4.1.11129.2.4.5] is not found. *)
Theorem C6_sct_extension_not_found :
  ocsp_with_sctlist_der = example_ocsp_der [ocsp_sct_extension small_sctlist] /\
  sct_list small_sctlist = Ok [{| sct_der := [x00; x01; x02; x03] |}] /\
  (exists (r : OCSPResponse) (rb : ResponseBytes) (resp : asn1),
     decode_ocsp_response ocsp_with_sctlist_der = Ok r /\ responseBytes r = Some rb /\
     der_decode_sequence (response rb) = Ok resp /\
     sctlist_hex_from_ocsp_pretty_print (pretty_print_sequence resp) = Ok None) /\
  scts_from_ocsp_resp (Some ocsp_with_sctlist_der) = Ok [].
Proof.
  split; [reflexivity|]. split; [vm_compute; reflexivity|]. split; [|vm_compute; reflexivity].
  destruct (decode_ocsp_response ocsp_with_sctlist_der) as [r|e] eqn:E1;
    vm_compute in E1; [|discriminate].
  injection E1 as <-. eexists; eexists; eexists.
  split; [reflexivity|]. split; [reflexivity|]. split; [vm_compute; reflexivity|].
  vm_compute. reflexivity.
Qed.

(** C7: after a successful handshake [issuer_cert_der] is the DER of the
    second certificate of the presented chain when the chain has more than
    one certificate, and [None] otherwise. *)
Theorem C7_issuer_cert_der env domain port scts_tls scts_ocsp timeout w res :
  fst (do_handshake env domain port scts_tls scts_ocsp timeout w) = Ok res ->
  err res = "" ->
  ((1 < length (srv_peer_cert_chain (env_network env domain)))%nat ->
     exists c, nth_error (srv_peer_cert_chain (env_network env domain)) 1 = Some c /\
               issuer_cert_der res = Some (dump_certificate c)) /\
  ((length (srv_peer_cert_chain (env_network env domain)) <= 1)%nat -> issuer_cert_der res = None).
Proof.
  intros H He.
  destruct (do_handshake_result _ _ _ _ _ _ _ _ H) as [(_ & _ & Hi & _) | (Hn & _)];
    [| contradiction].
  rewrite Hi. split; intros Hlen.
  - apply Nat.ltb_lt in Hlen. rewrite Hlen.
    destruct (nth_error (srv_peer_cert_chain (env_network env domain)) 1) as [c|] eqn:Hc.
    + exists c. split; reflexivity.
    + apply nth_error_None in Hc. apply Nat.ltb_lt in Hlen. lia.
  - assert (Hf : (1 <? length (srv_peer_cert_chain (env_network env domain)))%nat = false)
      by (apply Nat.ltb_ge; exact Hlen).
    rewrite Hf. reflexivity.
Qed.

Lemma C7_issuer_cert_der_witness :
  issuer_cert_der plain_handshake_result = Some intermediate_der.
Proof.
  destruct (C7_issuer_cert_der plain_env "example.com" 443 true true 5 initial_world
              plain_handshake_result) as [H _].
  - vm_compute. reflexivity.
  - reflexivity.
  - destruct (H (le_n 2)) as (c & Hc & Hi). rewrite Hi. injection Hc as <-. reflexivity.
Defined.

(** C8 (as amended): a command-line error exits with status 2 and
    [--version] with 0; a normal return exits with 0; with an unreadable
    domain file (the log lists being loaded) the status is 1, and opening
    an unreadable domain file raises an exception other than [SystemExit]. *)
Theorem C8_exit_status env argv w :
  (forall message, argv = ArgparseError message -> main_exit_status env argv w = 2%Z) /\
  (argv = ArgparseVersion -> main_exit_status env argv w = 0%Z) /\
  (fst (main env argv w) = Ok tt -> main_exit_status env argv w = 0%Z) /\
  (forall a contents logs,
     argv = ArgparseNamespace a ->
     env_fetch_ctlogs env (a_fetch_ctlogs a) = Ok logs ->
     (forall fn, a_log_list_filename a = Some fn -> exists l, env_read_log_list env fn = Ok l) ->
     env_fs env (a_domain_file a) = RegularFile false contents ->
     main_exit_status env argv w = 1%Z) /\
  (forall df tasks ctlogs contents,
     env_fs env df = RegularFile false contents ->
     exists e, fst (domain_file_step env df tasks ctlogs w) = Raise e /\ exit_status (Raise e) = 1%Z).
Proof.
  split; [|split; [|split; [|split]]].
  - intros m ->. reflexivity.
  - intros ->. reflexivity.
  - unfold main_exit_status. intros ->. reflexivity.
  - intros a c logs -> Hf Hr _. unfold main_exit_status.
    rewrite (main_reads_args_df env a w logs Hf (fun fn H _ => Hr fn H)). reflexivity.
  - intros df tasks ctlogs c Hfs. unfold domain_file_step. rewrite Hfs.
    eexists. split; reflexivity.
Qed.

Lemma C8_exit_status_witness :
  main_exit_status unreadable_env (ArgparseNamespace (example_args "domains.txt")) initial_world = 1%Z /\
  main_exit_status unreadable_env ArgparseVersion initial_world = 0%Z.
Proof.
  destruct (C8_exit_status unreadable_env (ArgparseNamespace (example_args "domains.txt")) initial_world)
    as (_ & _ & _ & H & _).
  destruct (C8_exit_status unreadable_env ArgparseVersion initial_world) as (_ & Hv & _).
  split.
  - apply (H (example_args "domains.txt") "example.com" []); try reflexivity.
    intros fn Hfn. discriminate Hfn.
  - apply Hv. reflexivity.
Defined.

(** C8 fails as stated: a misused command line exits with status 2, not 1. *)
Lemma C8_usage_error_counterexample :
  main_exit_status plain_env
    (ArgparseError "the following arguments are required: -df/--domain-file") initial_world = 2%Z.
Proof. reflexivity. Qed.

(** C9 (code bug): the host name is set on the socket before the
    [try]/[finally]; a host name with a NUL character makes
    [set_tlsext_host_name] raise, and the socket is never closed. *)
Theorem C9_nul_domain_socket_left_open :
  fst (do_handshake plain_env nul_domain 443 true true 5 initial_world)
    = Raise (TypeError "name must not contain NUL byte") /\
  w_open (snd (do_handshake plain_env nul_domain 443 true true 5 initial_world))
    = [w_next_fd initial_world].
Proof. split; vm_compute; reflexivity. Qed.

(** C10: the driver's capture flags are the membership of the TLS and
    OCSP tasks; with a flag off, [create_context] registers no callback for
    it and the result carries no [tls_ext_18_tdf] (resp. [ocsp_resp_der]),
    so [scts_by_tls] (resp. [scts_by_ocsp]) is empty; [--cert-only] turns
    both off. *)
Theorem C10_capture_flags env tasks domain w res :
  fst (do_handshake env domain 443 (task_in verify_scts_by_tls tasks)
         (task_in verify_scts_by_ocsp tasks) 5 w) = Ok res ->
  (task_in verify_scts_by_tls tasks = false ->
     tls_ext_18_tdf res = None /\ scts_by_tls res = Ok [] /\
     forall w0 u w1,
       create_context env (task_in verify_scts_by_tls tasks) (task_in verify_scts_by_ocsp tasks) 5 w0
         = (Ok u, w1) -> ctx_custom_ext_18 (w_ctx w1) = false) /\
  (task_in verify_scts_by_ocsp tasks = false ->
     ocsp_resp_der res = None /\ scts_by_ocsp res = Ok [] /\
     forall w0 u w1,
       create_context env (task_in verify_scts_by_tls tasks) (task_in verify_scts_by_ocsp tasks) 5 w0
         = (Ok u, w1) -> ctx_ocsp_client_callback (w_ctx w1) = false) /\
  task_in verify_scts_by_tls cert_only_tasks = false /\
  task_in verify_scts_by_ocsp cert_only_tasks = false.
Proof.
  intros H.
  assert (Hr : tls_ext_18_tdf res = None \/ task_in verify_scts_by_tls tasks = true).
  { destruct (task_in verify_scts_by_tls tasks); [right; reflexivity | left].
    destruct (do_handshake_result _ _ _ _ _ _ _ _ H) as [(_ & _ & _ & _ & Ht & _) | (_ & _ & _ & _ & Ht & _)];
      [apply Ht; reflexivity | exact Ht]. }
  assert (Ho : ocsp_resp_der res = None \/ task_in verify_scts_by_ocsp tasks = true).
  { destruct (task_in verify_scts_by_ocsp tasks); [right; reflexivity | left].
    destruct (do_handshake_result _ _ _ _ _ _ _ _ H) as [(_ & _ & _ & _ & _ & Ht) | (_ & _ & _ & _ & _ & Ht)];
      [apply Ht; reflexivity | exact Ht]. }
  split; [|split; [|split; reflexivity]].
  - intros Hf. destruct Hr as [Hr | Hr]; [| congruence].
    split; [exact Hr|]. split; [unfold scts_by_tls; rewrite Hr; reflexivity|].
    intros w0 u w1 Hc. apply (create_context_registers _ _ _ _ _ _ _ Hc). exact Hf.
  - intros Hf. destruct Ho as [Ho | Ho]; [| congruence].
    split; [exact Ho|]. split; [unfold scts_by_ocsp; rewrite Ho; reflexivity|].
    intros w0 u w1 Hc. apply (create_context_registers _ _ _ _ _ _ _ Hc). exact Hf.
Qed.

Lemma C10_capture_flags_witness :
  scts_by_tls plain_handshake_result = Ok [] /\ scts_by_ocsp plain_handshake_result = Ok [].
Proof.
  destruct (C10_capture_flags plain_env cert_only_tasks "example.com" initial_world plain_handshake_result)
    as (Ht & Ho & _).
  - vm_compute. reflexivity.
  - split; [apply Ht | apply Ho]; reflexivity.
Defined.

(* ================================================================== *)
(** * Further properties of the code *)

(** ** Strings *)

Lemma str_app_assoc (a b c : string) : ((a ++ b) ++ c)%string = (a ++ b ++ c)%string.
Proof. induction a as [|x a IH]; cbn; [reflexivity | rewrite IH; reflexivity]. Qed.

Lemma str_app_nil_r (a : string) : (a ++ "")%string = a.
Proof. induction a as [|x a IH]; cbn; [reflexivity | rewrite IH; reflexivity]. Qed.

Lemma str_length_app (a b : string) : String.length (a ++ b) = String.length a + String.length b.
Proof. induction a as [|x a IH]; cbn; [reflexivity | rewrite IH; reflexivity]. Qed.

Lemma prefix_app (s1 s2 : string) : String.prefix s1 (s1 ++ s2) = true.
Proof.
  induction s1 as [|x s1 IH]; cbn.
  - destruct s2; reflexivity.
  - destruct (ascii_dec x x) as [_|n]; [exact IH | contradiction n; reflexivity].
Qed.

Lemma substring_all (s : string) : substring 0 (String.length s) s = s.
Proof. induction s as [|x s IH]; cbn; [reflexivity | rewrite IH; reflexivity]. Qed.

Lemma prefix_split (s1 s2 : string) :
  String.prefix s1 s2 = true ->
  s2 = (s1 ++ substring (String.length s1) (String.length s2 - String.length s1) s2)%string.
Proof.
  revert s2. induction s1 as [|x s1 IH]; intros s2 H.
  - cbn. rewrite Nat.sub_0_r, substring_all. reflexivity.
  - destruct s2 as [|y s2]; cbn in H; [discriminate|].
    destruct (ascii_dec x y) as [<-|]; [|discriminate].
    cbn. f_equal. apply IH. exact H.
Qed.

Lemma split_once_sound (sep s a b : string) :
  split_once sep s = Some (a, b) -> s = (a ++ sep ++ b)%string.
Proof.
  revert a. induction s as [|c s IH]; intros a H; cbn [split_once] in H.
  - destruct (String.prefix sep "") eqn:P.
    + injection H as <- <-. cbn. apply prefix_split. exact P.
    + discriminate.
  - destruct (String.prefix sep (String c s)) eqn:P.
    + injection H as <- <-. cbn. apply prefix_split. exact P.
    + destruct (split_once sep s) as [[a' b']|]; [|discriminate].
      injection H as <- <-. cbn. f_equal. apply IH. reflexivity.
Qed.

Lemma split_once_none (sep s : string) :
  (forall a b, s <> (a ++ sep ++ b)%string) -> split_once sep s = None.
Proof.
  intros H. destruct (split_once sep s) as [[a b]|] eqn:E; [|reflexivity].
  exfalso. apply (H a b). apply split_once_sound. exact E.
Qed.

Lemma split_once_complete (sep s : string) :
  split_once sep s = None -> forall a b, s <> (a ++ sep ++ b)%string.
Proof.
  induction s as [|c s IH]; intros H a b E; cbn [split_once] in H.
  - destruct a; [|discriminate]. cbn in E. rewrite E, prefix_app in H. discriminate.
  - destruct a as [|c' a].
    + cbn in E. rewrite E, prefix_app in H. discriminate.
    + cbn in E. injection E as <- E.
      destruct (String.prefix sep (String c s)); [discriminate|].
      destruct (split_once sep s) as [[? ?]|]; [discriminate|].
      exact (IH eq_refl a b E).
Qed.

Lemma split_once_first (sep s a b : string) :
  sep <> "" -> split_once sep s = Some (a, b) -> forall x y, a <> (x ++ sep ++ y)%string.
Proof.
  intros Hsep. revert a. induction s as [|c s IH]; intros a H x y E; cbn [split_once] in H.
  - destruct (String.prefix sep ""); [|discriminate]. injection H as <- _.
    destruct x; [destruct sep; [contradiction | discriminate] | discriminate].
  - destruct (String.prefix sep (String c s)) eqn:P.
    + injection H as <- _. destruct x; [destruct sep; [contradiction | discriminate] | discriminate].
    + destruct (split_once sep s) as [[a' b']|] eqn:S'; [|discriminate].
      injection H as <- <-.
      destruct x as [|c' x].
      * apply split_once_sound in S'. cbn in E. rewrite S' in P.
        change (String c (a' ++ sep ++ b')) with (String c a' ++ sep ++ b')%string in P.
        rewrite E, str_app_assoc, prefix_app in P. discriminate.
      * cbn in E. injection E as _ E. exact (IH a' eq_refl x y E).
Qed.

(** [sctlist_hex_from_ocsp_pretty_print] returns [None] exactly when the
    text has no [<no-name>=1.3.6.1.4.1.11129.2.4.5]; the hex it returns sits
    between a [<no-name>=0x] after that marker and the next newline, and
    holds no newline; with the marker but no [<no-name>=0x] anywhere, the
    tuple unpacking raises [ValueError]. *)
Theorem sctlist_hex_from_ocsp_pretty_print_cases (s : string) :
  (sctlist_hex_from_ocsp_pretty_print s = Ok None <->
   forall a b, s <> (a ++ ocsp_sctlist_marker ++ b)%string) /\
  (forall h, sctlist_hex_from_ocsp_pretty_print s = Ok (Some h) ->
   (exists a b c, s = (a ++ ocsp_sctlist_marker ++ b ++ "<no-name>=0x" ++ h ++ nl ++ c)%string) /\
   forall x y, h <> (x ++ nl ++ y)%string) /\
  ((exists a b, s = (a ++ ocsp_sctlist_marker ++ b)%string) ->
   (forall x y, s <> (x ++ "<no-name>=0x" ++ y)%string) ->
   sctlist_hex_from_ocsp_pretty_print s =
     Raise (ValueError "not enough values to unpack (expected 2, got 1)")).
Proof.
  unfold sctlist_hex_from_ocsp_pretty_print, py_split1.
  destruct (split_once ocsp_sctlist_marker s) as [[a after]|] eqn:E1.
  - apply split_once_sound in E1.
    assert (A : forall r : result (option string), r <> Ok None ->
              (r = Ok None <-> forall a b, s <> (a ++ ocsp_sctlist_marker ++ b)%string)).
    { intros r Hr. split; [intros Hr'; contradiction | intros Hn; exfalso; exact (Hn a after E1)]. }
    destruct (split_once "<no-name>=0x" after) as [[b rest]|] eqn:E2.
    + apply split_once_sound in E2.
      assert (C : (forall x y, s <> (x ++ "<no-name>=0x" ++ y)%string) -> False).
      { intros Hn. apply (Hn (a ++ ocsp_sctlist_marker ++ b)%string rest).
        rewrite E1, E2, !str_app_assoc. reflexivity. }
      destruct (split_once nl rest) as [[h c]|] eqn:E3.
      * split; [apply A; discriminate|]. split.
        -- intros h' Hh. injection Hh as <-. split.
           ++ apply split_once_sound in E3.
              exists a, b, c. rewrite E1, E2, E3. reflexivity.
           ++ apply (split_once_first nl rest h c); [discriminate | exact E3].
        -- intros _ Hn. exfalso. exact (C Hn).
      * split; [apply A; discriminate|]. split.
        -- intros h' Hh. discriminate.
        -- intros _ Hn. exfalso. exact (C Hn).
    + split; [apply A; discriminate|]. split.
      * intros h' Hh. discriminate.
      * intros _ _. reflexivity.
  - split; [split; [intros _; apply split_once_complete; exact E1 | reflexivity]|]. split.
    + intros h' Hh. discriminate.
    + intros [a [b Hab]]. exfalso. exact (split_once_complete _ _ E1 a b Hab).
Qed.

(** ** SCT lists in certificates *)

Lemma byte_hex_digits (b : byte) :
  hex_value (hex_digit (N.div (bval b) 16)) = Some (N.div (bval b) 16) /\
  hex_value (hex_digit (N.modulo (bval b) 16)) = Some (N.modulo (bval b) 16) /\
  bN (N.div (bval b) 16 * 16 + N.modulo (bval b) 16) = b /\
  hex_digit (N.div (bval b) 16) <> "x"%char /\ hex_digit (N.modulo (bval b) 16) <> "x"%char.
Proof. destruct b; vm_compute; repeat split; discriminate. Qed.

Lemma unhexlify_hexlify (bs : bytes) : unhexlify (hexlify bs) = Ok bs.
Proof.
  induction bs as [|b bs IH]; [reflexivity|].
  destruct (byte_hex_digits b) as (H1 & H2 & H3 & _).
  cbn [hexlify unhexlify]. rewrite H1, H2, IH. cbn. rewrite H3. reflexivity.
Qed.

Lemma hexlify_no_x (bs : bytes) : forall a b, hexlify bs <> (a ++ String "x" b)%string.
Proof.
  induction bs as [|c bs IH]; intros a b E.
  - destruct a; discriminate.
  - destruct (byte_hex_digits c) as (_ & _ & _ & X1 & X2).
    destruct a as [|c1 [|c2 a]]; cbn in E; inversion E;
      solve [contradiction | eapply IH; eassumption].
Qed.

Lemma py_split_0x_hexlify (bs : bytes) : py_split ("0x" ++ hexlify bs) "0x" = [""; hexlify bs].
Proof.
  unfold py_split. cbn [py_split_fuel split_once String.prefix append].
  cbn -[hexlify substring].
  replace (String.prefix "" (hexlify bs)) with true by (destruct (hexlify bs); reflexivity).
  cbn [substring]. rewrite Nat.sub_0_r, substring_all.
  rewrite split_once_none; [reflexivity|].
  intros a b E. apply (hexlify_no_x bs (a ++ "0")%string b).
  rewrite E, str_app_assoc. reflexivity.
Qed.

Theorem scts_of_sctlist_octets_nonprintable (os : bytes) :
  forallb printable os = false ->
  scts_of_sctlist_octets os = (let? entries := sct_list os in Ok (map sct_of_entry entries)).
Proof.
  intros Hp. unfold scts_of_sctlist_octets, octets_pretty_out. rewrite Hp.
  rewrite py_split_0x_hexlify. cbn [py_last last]. rewrite unhexlify_hexlify. reflexivity.
Qed.

Lemma list_N_eqb_true (l1 l2 : list N) : list_N_eqb l1 l2 = true <-> l1 = l2.
Proof.
  unfold list_N_eqb. revert l2.
  induction l1 as [|x l1 IH]; intros [|y l2]; cbn; try (split; congruence).
  rewrite !andb_true_iff, N.eqb_eq, Nat.eqb_eq.
  specialize (IH l2). rewrite andb_true_iff, Nat.eqb_eq in IH.
  split.
  - intros [Hl [-> Hf]]. f_equal. apply IH. auto.
  - intros E. injection E as -> <-. destruct (proj2 IH eq_refl) as [Hl Hf]. auto.
Qed.



(** ** The domain file *)

Lemma readlines_fuel_lines (f : nat) (s : string) :
  String.length s < f ->
  fold_right String.append "" (readlines_fuel f s) = s /\
  Forall (fun l => l <> "" /\
                   ((exists x, l = (x ++ nl)%string /\ forall a b, x <> (a ++ nl ++ b)%string) \/
                    forall a b, l <> (a ++ nl ++ b)%string)) (readlines_fuel f s) /\
  Forall (fun l => exists x, l = (x ++ nl)%string) (removelast (readlines_fuel f s)).
Proof.
  revert s. induction f as [|f IH]; intros s Hlen; [cbn in Hlen; lia|].
  destruct s as [|c s0]; [cbn; repeat constructor|].
  cbn [readlines_fuel].
  destruct (split_once nl (String c s0)) as [[line rest]|] eqn:E.
  - pose proof (split_once_sound _ _ _ _ E) as Es.
    pose proof (split_once_first nl _ _ _ ltac:(discriminate) E) as Ef.
    assert (Hr : String.length rest < f).
    { rewrite Es, !str_length_app in Hlen. cbn in Hlen. lia. }
    destruct (IH rest Hr) as (P1 & P2 & P3).
    split; [|split].
    + cbn [fold_right]. rewrite P1, str_app_assoc, <- Es. reflexivity.
    + constructor; [|exact P2]. split.
      * destruct line; discriminate.
      * left. exists line. auto.
    + destruct (readlines_fuel f rest) as [|l' ls]; [constructor|].
      cbn [removelast]. constructor; [exists line; reflexivity | exact P3].
  - split; [|split].
    + cbn [fold_right]. apply str_app_nil_r.
    + constructor; [|constructor]. split; [discriminate|].
      right. apply split_once_complete. exact E.
    + constructor.
Qed.

(** The lines the [f.readline()] loop of [main] hands to
    [scrape_and_verify_scts]: together they are the file contents, none is
    empty, each has at most one newline, at its end, and all but the last
    end with a newline. *)
Theorem readlines_lines (s : string) :
  fold_right String.append "" (readlines s) = s /\
  Forall (fun l => l <> "" /\
                   ((exists x, l = (x ++ nl)%string /\ forall a b, x <> (a ++ nl ++ b)%string) \/
                    forall a b, l <> (a ++ nl ++ b)%string)) (readlines s) /\
  Forall (fun l => exists x, l = (x ++ nl)%string) (removelast (readlines s)).
Proof. apply readlines_fuel_lines. lia. Qed.

(** ** [show_signature_verbose] *)

Lemma chunks_fuel_nil {A} (f n : nat) : chunks_fuel f n (@nil A) = [].
Proof. destruct f; reflexivity. Qed.

Lemma chunks_fuel_concat {A} (n f : nat) (l : list A) :
  0 < n -> length l < f -> concat (chunks_fuel f n l) = l.
Proof.
  intros Hn. revert l. induction f as [|f IH]; intros l Hl; [lia|].
  destruct l as [|x l']; [reflexivity|].
  cbn [chunks_fuel concat]. rewrite IH; [apply firstn_skipn|].
  rewrite length_skipn. cbn [length] in Hl |- *. lia.
Qed.

Lemma chunks_fuel_sizes {A} (n f : nat) (l : list A) :
  0 < n ->
  Forall (fun c => 0 < length c <= n) (chunks_fuel f n l) /\
  Forall (fun c => length c = n) (removelast (chunks_fuel f n l)).
Proof.
  intros Hn. revert l. induction f as [|f IH]; intros l; [split; constructor|].
  destruct l as [|x l']; [split; constructor|].
  cbn [chunks_fuel]. destruct (IH (skipn n (x :: l'))) as [P1 P2]. split.
  - constructor; [|exact P1]. rewrite length_firstn. cbn. lia.
  - destruct (chunks_fuel f n (skipn n (x :: l'))) as [|c cs] eqn:E; [constructor|].
    cbn [removelast]. constructor; [|exact P2].
    rewrite length_firstn. apply Nat.min_l.
    destruct (Nat.le_gt_cases (length (x :: l')) n) as [Hle|Hgt]; [|lia].
    rewrite skipn_all2 in E by exact Hle. rewrite chunks_fuel_nil in E. discriminate.
Qed.

Lemma signature_piece (sig : bytes) (o : nat) :
  o < length sig ->
  unpack_from_s (if (16 <? length sig - o)%nat then 16%nat else (length sig - o)%nat) sig o
    = Ok (firstn 16 (skipn o sig)) /\
  skipn (o + (if (16 <? length sig - o)%nat then 16%nat else (length sig - o)%nat)) sig
    = skipn 16 (skipn o sig) /\
  0 < (if (16 <? length sig - o)%nat then 16%nat else (length sig - o)%nat).
Proof.
  intros Ho. unfold unpack_from_s.
  destruct (Nat.ltb_spec 16 (length sig - o)) as [H16|H16].
  - replace (length sig <? o + 16)%nat with false by (symmetry; apply Nat.ltb_ge; lia).
    rewrite skipn_skipn, Nat.add_comm. repeat split. lia.
  - replace (length sig <? o + (length sig - o))%nat with false by (symmetry; apply Nat.ltb_ge; lia).
    rewrite !firstn_all2 by (rewrite length_skipn; lia).
    replace (skipn (o + (length sig - o)) sig) with (@nil byte) by (symmetry; apply skipn_all2; lia).
    replace (skipn 16 (skipn o sig)) with (@nil byte) by (symmetry; apply skipn_all2; rewrite length_skipn; lia).
    repeat split. lia.
Qed.

Lemma show_signature_verbose_loop_rest (to_hex : bytes -> string) (sig : bytes) :
  forall f o w, 0 < o ->
  show_signature_verbose_loop to_hex f sig o w =
  (Ok tt, {| w_ctx := w_ctx w; w_next_fd := w_next_fd w; w_open := w_open w;
             w_trace := w_trace w ++ map (fun c => LogVerbose ("            " ++ to_hex c))
                                         (chunks_fuel f 16 (skipn o sig)) |}).
Proof.
  induction f as [|f IH]; intros o w Ho.
  - cbn. destruct w; cbn. rewrite app_nil_r. reflexivity.
  - cbn [show_signature_verbose_loop].
    destruct (Nat.ltb_spec o (length sig)) as [Hlt|Hge].
    + destruct (signature_piece sig o Hlt) as (U & K & P).
      unfold mbind at 1, lift at 1. rewrite U.
      replace (Nat.eqb o 0) with false by (symmetry; apply Nat.eqb_neq; lia).
      unfold mbind at 1. cbn [emit]. rewrite IH by lia. rewrite K.
      destruct (skipn o sig) as [|y ys] eqn:Es.
      * apply (f_equal (@length byte)) in Es. rewrite length_skipn in Es. cbn in Es. lia.
      * cbn [chunks_fuel map w_trace w_ctx w_next_fd w_open]. rewrite <- app_assoc. reflexivity.
    + rewrite skipn_all2 by exact Hge. rewrite chunks_fuel_nil.
      cbn. destruct w; cbn. rewrite app_nil_r. reflexivity.
Qed.

(** [show_signature_verbose] never raises: it logs one verbose line per
    16-byte piece of the signature, the first labelled [Signature : ] and the
    others indented by 12 spaces; the pieces, in order, make up the
    signature and all but the last have 16 bytes. *)
Theorem show_signature_verbose_lines (to_hex : bytes -> string) (signature : bytes) (w : World) :
  show_signature_verbose to_hex signature w =
    (Ok tt, {| w_ctx := w_ctx w; w_next_fd := w_next_fd w; w_open := w_open w;
               w_trace := w_trace w ++ signature_lines to_hex signature |}) /\
  concat (chunks16 signature) = signature /\
  Forall (fun c => 0 < length c <= 16) (chunks16 signature) /\
  Forall (fun c => length c = 16) (removelast (chunks16 signature)).
Proof.
  split; [|split; [apply chunks_fuel_concat; lia | apply chunks_fuel_sizes; lia]].
  unfold show_signature_verbose, signature_lines, chunks16.
  destruct signature as [|b bs] eqn:Esig.
  - cbn. destruct w; cbn. rewrite app_nil_r. reflexivity.
  - rewrite <- Esig. cbn [show_signature_verbose_loop].
    assert (H0 : 0 < length signature) by (rewrite Esig; cbn; lia).
    destruct (signature_piece signature 0 H0) as (U & K & P).
    replace (0 <? length signature)%nat with true by (symmetry; apply Nat.ltb_lt; exact H0).
    rewrite Nat.sub_0_r in U, K, P |- *.
    unfold mbind at 1, lift at 1. rewrite U. cbn [Nat.eqb].
    unfold mbind at 1. cbn [emit].
    rewrite show_signature_verbose_loop_rest by exact P. rewrite K.
    rewrite Esig. cbn [chunks_fuel skipn length]. rewrite <- Esig.
    cbn [w_trace w_ctx w_next_fd w_open map]. rewrite <- app_assoc. reflexivity.
Qed.

(** ** [do_handshake], [scrape_and_verify_scts] and [main] *)

Ltac hs_cases env domain :=
  unfold do_handshake, create_context, handshake_try_body, ssl_do_handshake, sock_connect,
    set_tlsext_host_name, request_ocsp, try_finally, try_except, handshake_except;
  destruct (existsb (fun b => Byte.eqb b Byte.x00) (encode domain));
  destruct (env_custom_ext_ok env);
  destruct (env_network env domain) as [ce rep st he pc ch];
  destruct ce; destruct rep; destruct he.

(** No result of [do_handshake] carries a TLS extension-18 payload, so
    [scts_by_tls] is always empty. *)
Theorem do_handshake_never_captures_tls_ext_18 env domain port scts_tls scts_ocsp timeout w res :
  fst (do_handshake env domain port scts_tls scts_ocsp timeout w) = Ok res ->
  tls_ext_18_tdf res = None /\ scts_by_tls res = Ok [].
Proof.
  intros H. assert (E : tls_ext_18_tdf res = None).
  { revert H. hs_cases env domain; destruct scts_tls, scts_ocsp; cbn; intros H;
      try discriminate; injection H as <-; reflexivity. }
  split; [exact E | unfold scts_by_tls; rewrite E; reflexivity].
Qed.

(** With [scts_ocsp] set, a handshake that succeeds ([err] empty) returns
    the stapled OCSP response when it is not empty, and [None] otherwise. *)
Theorem do_handshake_ocsp_staple env domain port scts_tls timeout w res :
  fst (do_handshake env domain port scts_tls true timeout w) = Ok res ->
  err res = "" ->
  ocsp_resp_der res =
    (if bytes_truthy (srv_ocsp_staple (env_network env domain))
     then Some (srv_ocsp_staple (env_network env domain)) else None).
Proof.
  hs_cases env domain; destruct scts_tls; cbn; intros H; try discriminate;
    injection H as <-; cbn; intros He; try (destruct domain; discriminate); reflexivity.
Qed.

(** When [connect] fails with message [m] (and the context and the host
    name were accepted), [do_handshake] returns a result holding only
    [err = domain + ': ' + m] (the class name when [m] is empty). *)
Theorem do_handshake_connect_error env domain port scts_tls scts_ocsp timeout w m :
  srv_connect_error (env_network env domain) = Some m ->
  existsb (fun b => Byte.eqb b x00) (encode domain) = false ->
  (scts_tls = true -> env_custom_ext_ok env = true) ->
  fst (do_handshake env domain port scts_tls scts_ocsp timeout w) =
    Ok {| ee_cert_der := None; issuer_cert_der := None; more_issuer_cert_der_candidates := [];
          ocsp_resp_der := None; tls_ext_18_tdf := None;
          err := domain ++ ": " ++ (if str_truthy m then m else "<class 'OSError'>") |}.
Proof.
  intros Hc Hn Ht. revert Hc Hn Ht.
  hs_cases env domain; cbn [srv_connect_error]; intros Hc Hn Ht; try discriminate;
    injection Hc as <-; destruct scts_tls, scts_ocsp; cbn; try reflexivity;
    specialize (Ht eq_refl); discriminate.
Qed.

(** With [scts_tls] set, a peer that answers the SCT extension makes the
    handshake fail: the parse callback raises, cffi returns 0, and the
    result holds only the [bad extension] error. *)
Theorem do_handshake_ext18_reply_fails env domain port scts_ocsp timeout w payload :
  env_custom_ext_ok env = true ->
  existsb (fun b => Byte.eqb b x00) (encode domain) = false ->
  srv_connect_error (env_network env domain) = None ->
  srv_ext18_reply (env_network env domain) = Some payload ->
  fst (do_handshake env domain port true scts_ocsp timeout w) =
    Ok {| ee_cert_der := None; issuer_cert_der := None; more_issuer_cert_der_candidates := [];
          ocsp_resp_der := None; tls_ext_18_tdf := None;
          err := domain ++ ": [('SSL routines', '', 'bad extension')]" |}.
Proof.
  intros Hk Hn Hc Hr. revert Hk Hn Hc Hr.
  hs_cases env domain; cbn [srv_connect_error srv_ext18_reply]; intros Hk Hn Hc Hr;
    try discriminate; injection Hr as <-; destruct scts_ocsp; cbn; reflexivity.
Qed.

(** If the custom extension 18 cannot be registered and the TLS task is
    selected, [scrape_and_verify_scts] exits with [SystemExit(1)] (which
    [except Exception] does not catch), after the stderr message and before
    any socket is created. *)
Theorem scrape_exits_without_custom_extension env hostname tasks ctlogs w :
  task_in verify_scts_by_tls tasks = true ->
  env_custom_ext_ok env = false ->
  exists w', scrape_and_verify_scts env hostname tasks ctlogs w = (Raise (SystemExit 1), w') /\
             w_trace w' = w_trace w ++ [LogInfo ("# " ++ hostname ++ nl);
                                        Stderr ("Unable to add custom extension 18" ++ nl)] /\
             w_open w' = w_open w /\ w_next_fd w' = w_next_fd w.
Proof.
  intros Ht Hk. unfold scrape_and_verify_scts, do_handshake, create_context.
  rewrite Ht, Hk. eexists. split; [cbn; reflexivity|].
  cbn. rewrite <- app_assoc. auto.
Qed.

(** In a result of [do_handshake], [err] is empty exactly when the
    end-entity certificate is present; when [err] is set, every other field
    is empty. *)
Theorem do_handshake_err_iff_no_certificate env domain port scts_tls scts_ocsp timeout w res :
  fst (do_handshake env domain port scts_tls scts_ocsp timeout w) = Ok res ->
  (err res = "" <-> ee_cert_der res <> None) /\
  (err res <> "" -> issuer_cert_der res = None /\ more_issuer_cert_der_candidates res = [] /\
                    ocsp_resp_der res = None /\ tls_ext_18_tdf res = None).
Proof.
  intros H. destruct (do_handshake_result _ _ _ _ _ _ _ _ H)
    as [(E1 & E2 & _) | (E1 & E2 & E3 & E4 & E5 & E6)].
  - rewrite E1, E2. split; [split; [discriminate | reflexivity] | intros C; contradiction].
  - rewrite E2. split; [split; [intros C; contradiction | intros C; contradiction] | auto].
Qed.

(** After a failed handshake, [scrape_and_verify_scts] only logs [err] as
    a warning: no certificate property and no verification task. *)
Theorem failed_handshake_only_warns env domain port scts_tls scts_ocsp timeout w0 res
    tasks ctlogs w :
  fst (do_handshake env domain port scts_tls scts_ocsp timeout w0) = Ok res ->
  err res <> "" ->
  report_and_verify env tasks ctlogs res w =
    (Ok tt, {| w_ctx := w_ctx w; w_next_fd := w_next_fd w; w_open := w_open w;
               w_trace := w_trace w ++ [LogWarning (err res)] |}).
Proof.
  intros H He. destruct (do_handshake_result _ _ _ _ _ _ _ _ H)
    as [(E1 & _) | (_ & E2 & _)]; [contradiction|].
  unfold report_and_verify, log_cert_properties. rewrite E2.
  destruct (err res) as [|c s] eqn:Ee; [contradiction|]. cbn. reflexivity.
Qed.

(** When the log lists load, [main] sets up logging, logs the namespace
    at debug level and stops at [args.df] with an [AttributeError]: no
    other output, no file opened, no host processed, exit status 1. *)
Theorem main_stops_before_domain_file env a w logs :
  env_fetch_ctlogs env (a_fetch_ctlogs a) = Ok logs ->
  (forall fn, a_log_list_filename a = Some fn -> str_truthy fn = true ->
              exists l, env_read_log_list env fn = Ok l) ->
  main env (ArgparseNamespace a) w =
    (Raise (AttributeError "'Namespace' object has no attribute 'df'"),
     {| w_ctx := w_ctx w; w_next_fd := w_next_fd w; w_open := w_open w;
        w_trace := w_trace w ++ [LoggerInit; LoggerSetup (a_loglevel a);
                                 LogDebugNamespace (namespace_attrs a)] |}) /\
  main_exit_status env (ArgparseNamespace a) w = 1%Z.
Proof.
  intros Hf Hr. pose proof (main_reads_args_df env a w logs Hf Hr) as E.
  split; [exact E | unfold main_exit_status; rewrite E; reflexivity].
Qed.

(** ** Witnesses *)



Lemma do_handshake_never_captures_tls_ext_18_witness :
  tls_ext_18_tdf plain_handshake_result = None /\ scts_by_tls plain_handshake_result = Ok [].
Proof.
  apply (do_handshake_never_captures_tls_ext_18 plain_env "example.com" 443 true true 5 initial_world).
  vm_compute. reflexivity.
Defined.

Lemma do_handshake_ocsp_staple_witness :
  let res := {| ee_cert_der := Some leaf_der; issuer_cert_der := Some intermediate_der;
                more_issuer_cert_der_candidates := [leaf_der; leaf_der; intermediate_der];
                ocsp_resp_der := Some [x30; x03; x0a; x01; x00]; tls_ext_18_tdf := None; err := "" |} in
  ocsp_resp_der res = Some [x30; x03; x0a; x01; x00].
Proof.
  intros res.
  apply (do_handshake_ocsp_staple staple_env "example.com" 443 true 5 initial_world res);
    [vm_compute; reflexivity | reflexivity].
Defined.

Lemma do_handshake_connect_error_witness :
  fst (do_handshake refused_env "example.com" 443 true true 5 initial_world) =
    Ok {| ee_cert_der := None; issuer_cert_der := None; more_issuer_cert_der_candidates := [];
          ocsp_resp_der := None; tls_ext_18_tdf := None;
          err := "example.com: [Errno 111] Connection refused" |}.
Proof.
  apply (do_handshake_connect_error refused_env "example.com" 443 true true 5 initial_world
           "[Errno 111] Connection refused"); [reflexivity | vm_compute; reflexivity | reflexivity].
Defined.

Lemma do_handshake_ext18_reply_fails_witness :
  fst (do_handshake ext18_env "example.com" 443 true false 5 initial_world) =
    Ok {| ee_cert_der := None; issuer_cert_der := None; more_issuer_cert_der_candidates := [];
          ocsp_resp_der := None; tls_ext_18_tdf := None;
          err := "example.com: [('SSL routines', '', 'bad extension')]" |}.
Proof.
  apply (do_handshake_ext18_reply_fails ext18_env "example.com" 443 false 5 initial_world
           ([x00; x08] ++ small_sctlist)); [reflexivity | vm_compute; reflexivity | reflexivity | reflexivity].
Defined.

Lemma scrape_exits_without_custom_extension_witness :
  exists w', scrape_and_verify_scts no_custom_ext_env "example.com" all_tasks [] initial_world
               = (Raise (SystemExit 1), w') /\
             w_trace w' = [LogInfo ("# example.com" ++ nl);
                           Stderr ("Unable to add custom extension 18" ++ nl)] /\
             w_open w' = [] /\ w_next_fd w' = 3.
Proof.
  apply (scrape_exits_without_custom_extension no_custom_ext_env "example.com" all_tasks [] initial_world);
    reflexivity.
Defined.

Lemma do_handshake_err_iff_no_certificate_witness :
  (err plain_handshake_result = "" <-> ee_cert_der plain_handshake_result <> None) /\
  (err plain_handshake_result <> "" ->
   issuer_cert_der plain_handshake_result = None /\ more_issuer_cert_der_candidates plain_handshake_result = [] /\
   ocsp_resp_der plain_handshake_result = None /\ tls_ext_18_tdf plain_handshake_result = None).
Proof.
  apply (do_handshake_err_iff_no_certificate plain_env "example.com" 443 true true 5 initial_world).
  vm_compute. reflexivity.
Defined.

Lemma failed_handshake_only_warns_witness :
  let res := {| ee_cert_der := None; issuer_cert_der := None; more_issuer_cert_der_candidates := [];
                ocsp_resp_der := None; tls_ext_18_tdf := None;
                err := "example.com: [Errno 111] Connection refused" |} in
  report_and_verify refused_env all_tasks [] res initial_world =
    (Ok tt, {| w_ctx := empty_ctx; w_next_fd := 3; w_open := [];
               w_trace := [LogWarning "example.com: [Errno 111] Connection refused"] |}).
Proof.
  intros res.
  apply (failed_handshake_only_warns refused_env "example.com" 443 true true 5 initial_world res
           all_tasks [] initial_world); [vm_compute; reflexivity | discriminate].
Defined.

Lemma main_stops_before_domain_file_witness :
  main plain_env (ArgparseNamespace (example_args "hosts.txt")) initial_world =
    (Raise (AttributeError "'Namespace' object has no attribute 'df'"),
     {| w_ctx := empty_ctx; w_next_fd := 3; w_open := [];
        w_trace := [LoggerInit; LoggerSetup 15;
                    LogDebugNamespace
                      [("domain_file", PyStr "hosts.txt"); ("fetch_ctlogs", PyFunction "get_log_list");
                       ("log_list_filename", PyNone); ("loglevel", PyInt 15);
                       ("verification_tasks", PyList [PyFunction "verify_scts_by_cert";
                                                      PyFunction "verify_scts_by_tls";
                                                      PyFunction "verify_scts_by_ocsp"]);
                       ("version", PyBool false)]] |}) /\
  main_exit_status plain_env (ArgparseNamespace (example_args "hosts.txt")) initial_world = 1%Z.
Proof.
  apply (main_stops_before_domain_file plain_env (example_args "hosts.txt") initial_world []);
    [reflexivity | intros fn Hfn; discriminate].
Defined.

Lemma do_handshake_closes_socket_witness :
  ~ In 3 (w_open (snd (do_handshake plain_env "example.com" 443 true true 5 initial_world))).
Proof.
  apply (do_handshake_closes_socket plain_env "example.com" 443 true true 5 initial_world
           plain_handshake_result); vm_compute; reflexivity.
Defined.
